(** * Norway Macro Clock (gjeldsur): the enrichment routine, the index loader,
    the tile, the sparkline and the party bands, embedded and checked against
    the design document.

    Values of a series are IEEE 754 binary64 numbers ([float], the kernel's
    primitive floats), as pandas' [float64] columns and JavaScript's [number]
    are.  Python exceptions are a sum type; React state is passed explicitly. *)

From Stdlib Require Import ZArith List Floats Lia Bool Ascii.
From stdpp Require Import gmap strings list pretty.
Import ListNotations.

Open Scope string_scope.

(** ** Python: exceptions and the pandas accessors used by [enrich] *)

Module Py.

Inductive exn := IndexError.

(** A computation that returns or raises. *)
Definition M (A : Type) : Type := exn + A.

Definition ret {A} (a : A) : M A := inr a.
Definition raise {A} (e : exn) : M A := inl e.
Definition bind {A B} (m : M A) (k : A -> M B) : M B :=
  match m with
  | inl e => inl e
  | inr a => k a
  end.

End Py.

Notation "x <- m ;; k" := (Py.bind m (fun x => k))
  (at level 100, m at next level, right associativity).

Module Pandas.

(** [s.iloc[i]] on a Series of [n] values: a negative position counts from
    the end; a position outside [-n .. n-1] raises IndexError. *)
Definition iloc (s : list float) (i : Z) : Py.M float :=
  let n := Z.of_nat (length s) in
  let j := (if i <? 0 then n + i else i)%Z in
  if ((0 <=? j) && (j <? n))%Z
  then match nth_error s (Z.to_nat j) with
       | Some v => Py.ret v
       | None => Py.raise Py.IndexError
       end
  else Py.raise Py.IndexError.

(** [s.min()] and [s.max()] skip NaN entries (skipna is on by default) and
    give NaN when nothing is left. *)
Definition notna (s : list float) : list float :=
  List.filter (fun x => negb (is_nan x)) s.

Definition smin (s : list float) : float :=
  match notna s with
  | [] => nan
  | x :: xs => fold_left (fun acc y => if (y <? acc)%float then y else acc) xs x
  end.

Definition smax (s : list float) : float :=
  match notna s with
  | [] => nan
  | x :: xs => fold_left (fun acc y => if (acc <? y)%float then y else acc) xs x
  end.

End Pandas.

(** ** The enrichment routine (the indicator module's [enrich]) *)

Module Indicator.

Record SeriesPoint := { date : string; value : float }.

(** The data frame handed to [enrich]: one row per point, ascending by
    date. *)
Definition DataFrame := list SeriesPoint.

Record Snapshot := {
  latest_value : option float;
  mom_pct : option float;
  yoy_pct : option float;
  min : option float;
  max : option float
}.

(** [(new/old - 1) * 100] in binary64. *)
Definition pct (new old : float) : float := ((new / old - 1) * 100)%float.

(** The dictionary is built entry by entry, in source order; [float(..)] of
    a float64 is the same number. *)
Definition enrich (df : DataFrame) : Py.M Snapshot :=
  let s := map value df in
  latest <- Pandas.iloc s (-1) ;;
  mom <- (if (1 <? length s)%nat
          then (a <- Pandas.iloc s (-1) ;;
                b <- Pandas.iloc s (-2) ;;
                Py.ret (Some (pct a b)))
          else Py.ret None) ;;
  yoy <- (if (13 <? length s)%nat
          then (a <- Pandas.iloc s (-1) ;;
                b <- Pandas.iloc s (-13) ;;
                Py.ret (Some (pct a b)))
          else Py.ret None) ;;
  Py.ret {| latest_value := Some latest;
            mom_pct := mom;
            yoy_pct := yoy;
            min := Some (Pandas.smin s);
            max := Some (Pandas.smax s) |}.

(** The [k]-th value from the end, [k = 1] being the last: what the design
    document writes [s[-k]]; nothing when the series has fewer than [k]
    points. *)
Definition from_end (df : DataFrame) (k : nat) : option float :=
  if ((k =? 0)%nat || (length df <? k)%nat)%bool then None
  else nth_error (map value df) (length df - k).

Definition pct_opt (new old : option float) : option float :=
  match new, old with
  | Some a, Some b => Some (pct a b)
  | _, _ => None
  end.

(** A series as the normalizer leaves it: missing values (NaN) dropped. *)
Definition no_missing (df : DataFrame) : Prop :=
  Forall (fun p => is_nan (value p) = false) df.

(** [m] is a least (greatest) value of the series in the order of binary64. *)
Definition least_of (df : DataFrame) (m : float) : Prop :=
  In m (map value df) /\ forall p, In p df -> (m <=? value p)%float = true.

Definition greatest_of (df : DataFrame) (m : float) : Prop :=
  In m (map value df) /\ forall p, In p df -> (value p <=? m)%float = true.

(** A binary64 number that is neither finite nor zero: an infinity or NaN. *)
Definition inf_or_nan (x : float) : bool := is_infinity x || is_nan x.

End Indicator.

(** ** The TypeScript interfaces of the web client, as shapes of JSON values *)

Module TS.

#[local] Set Warnings "-register-all".

Inductive type :=
| TString
| TNumber
| TBoolean
| TNull
| TUnion (a b : type)
| TArray (elem : type)
| TObject (fields : list (string * type)).

Inductive json :=
| JNull
| JBool (b : bool)
| JNum (x : float)
| JStr (s : string)
| JArr (items : list json)
| JObj (members : list (string * json)).

Fixpoint assoc {A} (k : string) (l : list (string * A)) : option A :=
  match l with
  | [] => None
  | (k', v) :: l' => if String.eqb k k' then Some v else assoc k l'
  end.

(** Structural typing of a parsed JSON value: every declared member is
    there with a value of its type. *)
Fixpoint conforms (t : type) (v : json) {struct t} : bool :=
  match t, v with
  | TString, JStr _ => true
  | TNumber, JNum _ => true
  | TBoolean, JBool _ => true
  | TNull, JNull => true
  | TUnion a b, _ => conforms a v || conforms b v
  | TArray elem, JArr items => forallb (conforms elem) items
  | TObject fields, JObj members =>
      (fix all_members (fs : list (string * type)) : bool :=
         match fs with
         | [] => true
         | (k, tk) :: fs' =>
             match assoc k members with
             | Some vk => conforms tk vk
             | None => false
             end && all_members fs'
         end) fields
  | _, _ => false
  end.

Definition field_names (t : type) : list string :=
  match t with
  | TObject fields => map fst fields
  | _ => []
  end.

Definition field (t : type) (k : string) : option type :=
  match t with
  | TObject fields => assoc k fields
  | _ => None
  end.

Definition nullable (t : type) : bool := conforms t JNull.

Definition elem_type (t : type) : option type :=
  match t with
  | TArray elem => Some elem
  | _ => None
  end.

End TS.

(** ** Tile.tsx: the artifact read by a tile *)

Module Tile.

Record Source := { name : string; url : string }.

Record IndicatorData := {
  id : string;
  title : string;
  unit : string;
  frequency : string;
  source : Source;
  last_updated_utc : string;
  series : list Indicator.SeriesPoint;
  snapshot : Indicator.Snapshot;
  politics_overlay : bool
}.

(** [interface IndicatorData], member by member. *)
Definition number_or_null : TS.type := TS.TUnion TS.TNumber TS.TNull.

Definition Snapshot_t : TS.type :=
  TS.TObject [ ("latest_value", number_or_null);
               ("mom_pct", number_or_null);
               ("yoy_pct", number_or_null);
               ("min", number_or_null);
               ("max", number_or_null) ].

Definition Source_t : TS.type :=
  TS.TObject [ ("name", TS.TString); ("url", TS.TString) ].

Definition SeriesPoint_t : TS.type :=
  TS.TObject [ ("date", TS.TString); ("value", TS.TNumber) ].

Definition IndicatorData_t : TS.type :=
  TS.TObject [ ("id", TS.TString);
               ("title", TS.TString);
               ("unit", TS.TString);
               ("frequency", TS.TString);
               ("source", Source_t);
               ("last_updated_utc", TS.TString);
               ("series", TS.TArray SeriesPoint_t);
               ("snapshot", Snapshot_t);
               ("politics_overlay", TS.TBoolean) ].

(** The JSON document of a record, member for member. *)
Definition json_of_number (o : option float) : TS.json :=
  match o with
  | Some x => TS.JNum x
  | None => TS.JNull
  end.

Definition json_of_snapshot (s : Indicator.Snapshot) : TS.json :=
  TS.JObj [ ("latest_value", json_of_number (Indicator.latest_value s));
            ("mom_pct", json_of_number (Indicator.mom_pct s));
            ("yoy_pct", json_of_number (Indicator.yoy_pct s));
            ("min", json_of_number (Indicator.min s));
            ("max", json_of_number (Indicator.max s)) ].

Definition json_of_point (p : Indicator.SeriesPoint) : TS.json :=
  TS.JObj [ ("date", TS.JStr (Indicator.date p));
            ("value", TS.JNum (Indicator.value p)) ].

Definition json_of_indicator (a : IndicatorData) : TS.json :=
  TS.JObj [ ("id", TS.JStr (id a));
            ("title", TS.JStr (title a));
            ("unit", TS.JStr (unit a));
            ("frequency", TS.JStr (frequency a));
            ("source", TS.JObj [ ("name", TS.JStr (name (source a)));
                                 ("url", TS.JStr (url (source a))) ]);
            ("last_updated_utc", TS.JStr (last_updated_utc a));
            ("series", TS.JArr (map json_of_point (series a)));
            ("snapshot", json_of_snapshot (snapshot a));
            ("politics_overlay", TS.JBool (politics_overlay a)) ].

End Tile.

(** ** Dashboard.tsx: loading the index and every indicator it lists *)

Module Dashboard.

Record IndexEntry := {
  id : string;
  path : string;
  title : string;
  unit : string;
  frequency : string;
  politics_overlay : bool
}.

Record IndexData := {
  indicators : list IndexEntry;
  last_updated : string
}.

(** [interface IndexData], member by member. *)
Definition IndexEntry_t : TS.type :=
  TS.TObject [ ("id", TS.TString);
               ("path", TS.TString);
               ("title", TS.TString);
               ("unit", TS.TString);
               ("frequency", TS.TString);
               ("politics_overlay", TS.TBoolean) ].

Definition IndexData_t : TS.type :=
  TS.TObject [ ("indicators", TS.TArray IndexEntry_t);
               ("last_updated", TS.TString) ].

Definition json_of_entry (e : IndexEntry) : TS.json :=
  TS.JObj [ ("id", TS.JStr (id e));
            ("path", TS.JStr (path e));
            ("title", TS.JStr (title e));
            ("unit", TS.JStr (unit e));
            ("frequency", TS.JStr (frequency e));
            ("politics_overlay", TS.JBool (politics_overlay e)) ].

Definition json_of_index (i : IndexData) : TS.json :=
  TS.JObj [ ("indicators", TS.JArr (map json_of_entry (indicators i)));
            ("last_updated", TS.JStr (last_updated i)) ].

(** What a rejected promise carries. *)
Inductive JsError :=
| FetchError (message : string)
| OtherError.

(** [error instanceof FetchError ? error.message : 'Failed to load data'] *)
Definition errorMessage (e : JsError) : string :=
  match e with
  | FetchError message => message
  | OtherError => "Failed to load data"
  end.

(** The component's state hooks. *)
Record State := {
  indexData : option IndexData;
  indicatorData : gmap string Tile.IndicatorData;
  loading : bool;
  errors : gmap string string;
  lastUpdated : string
}.

Definition initial : State :=
  {| indexData := None; indicatorData := ∅; loading := true;
     errors := ∅; lastUpdated := "" |}.

Definition setIndexData (v : option IndexData) (st : State) : State :=
  {| indexData := v; indicatorData := indicatorData st; loading := loading st;
     errors := errors st; lastUpdated := lastUpdated st |}.

Definition setIndicatorData (v : gmap string Tile.IndicatorData) (st : State) : State :=
  {| indexData := indexData st; indicatorData := v; loading := loading st;
     errors := errors st; lastUpdated := lastUpdated st |}.

Definition setLoading (v : bool) (st : State) : State :=
  {| indexData := indexData st; indicatorData := indicatorData st; loading := v;
     errors := errors st; lastUpdated := lastUpdated st |}.

(** [setErrors(prev => ...)]: a functional update. *)
Definition setErrors (f : gmap string string -> gmap string string) (st : State) : State :=
  {| indexData := indexData st; indicatorData := indicatorData st; loading := loading st;
     errors := f (errors st); lastUpdated := lastUpdated st |}.

Definition setLastUpdated (v : string) (st : State) : State :=
  {| indexData := indexData st; indicatorData := indicatorData st; loading := loading st;
     errors := errors st; lastUpdated := v |}.

Section Load.

(** The two calls of [lib/fetch], as what they settle to. *)
Variable fetchIndex : JsError + IndexData.
Variable fetchIndicatorData : string -> JsError + Tile.IndicatorData.

(** The body mapped over [index.indicators]: its own try/catch, so the
    promise it returns is always fulfilled. *)
Definition load_one (st : State) (indicator : IndexEntry)
  : State * (string * option Tile.IndicatorData) :=
  match fetchIndicatorData (id indicator) with
  | inr data => (st, (id indicator, Some data))
  | inl error =>
      (setErrors (fun prev => <[id indicator := errorMessage error]> prev) st,
       (id indicator, None))
  end.

(** What the promise of one entry is fulfilled with. *)
Definition settled (indicator : IndexEntry) : string * option Tile.IndicatorData :=
  (id indicator,
   match fetchIndicatorData (id indicator) with
   | inr data => Some data
   | inl _ => None
   end).

Fixpoint load_each (st : State) (inds : list IndexEntry)
  : State * list (string * option Tile.IndicatorData) :=
  match inds with
  | [] => (st, [])
  | indicator :: rest =>
      let '(st1, r) := load_one st indicator in
      let '(st2, rs) := load_each st1 rest in
      (st2, r :: rs)
  end.

(** [results.forEach]: keep the fulfilled results that carry data. *)
Definition collect (results : list (string * option Tile.IndicatorData))
  : gmap string Tile.IndicatorData :=
  fold_left (fun acc r =>
               match snd r with
               | Some data => <[fst r := data]> acc
               | None => acc
               end) results ∅.

Definition loadDashboard (st : State) : State :=
  let st := setLoading true st in
  match fetchIndex with
  | inr index =>
      let st := setIndexData (Some index) st in
      let st := setLastUpdated (last_updated index) st in
      let '(st, results) := load_each st (indicators index) in
      let st := setIndicatorData (collect results) st in
      setLoading false st
  | inl _ => setLoading false st
  end.

End Load.

(** What the grid shows for one entry of the index. *)
Inductive TileView :=
| LoadingTile (title : string)
| ErrorTile (title : string) (error : string)
| DataTile (data : Tile.IndicatorData).

(** A string in a condition: the empty string counts as false. *)
Definition truthy (s : option string) : bool :=
  match s with
  | Some s => negb (String.eqb s "")
  | None => false
  end.

Definition render_entry (st : State) (indicator : IndexEntry) : TileView :=
  let data := indicatorData st !! id indicator in
  let error := errors st !! id indicator in
  match data with
  | Some d =>
      if truthy error
      then ErrorTile (title indicator) (default "" error)
      else DataTile d
  | None =>
      if truthy error
      then ErrorTile (title indicator) (default "" error)
      else LoadingTile (title indicator)
  end.

Inductive View :=
| LoadingPage
| FailedPage
| Grid (lastUpdated : string) (tiles : list TileView).

Definition render (st : State) : View :=
  if loading st then LoadingPage
  else match indexData st with
       | None => FailedPage
       | Some index => Grid (lastUpdated st) (map (render_entry st) (indicators index))
       end.

End Dashboard.

(** ** Spark.tsx: the sparkline component *)

Module Spark.

(** [data] may be missing at run time, whatever the interface says: the
    component tests [!data]. [min] and [max] absent or null are [None]. *)
Record SparkProps := {
  data : option (list Indicator.SeriesPoint);
  showPolitics : bool;
  min : option float;
  max : option float;
  height : Z;
  width : Z
}.

(** [!data || data.length === 0] *)
Definition no_data (p : SparkProps) : bool :=
  match data p with
  | None => true
  | Some [] => true
  | Some (_ :: _) => false
  end.

(** [Math.min(...values)] and [Math.max(...values)]: NaN wins, and -0 is
    below +0. *)
Definition min2 (a b : float) : float :=
  if is_nan a || is_nan b then nan
  else if (a <? b)%float then a
  else if (b <? a)%float then b
  else if get_sign a then a else b.

Definition max2 (a b : float) : float :=
  if is_nan a || is_nan b then nan
  else if (b <? a)%float then a
  else if (a <? b)%float then b
  else if get_sign a then b else a.

Definition Math_min (values : list float) : float := fold_left min2 values infinity.
Definition Math_max (values : list float) : float := fold_left max2 values neg_infinity.

Record ChartOption := {
  xAxis_data : list string;
  series_data : list float;
  yAxis_min : float;
  yAxis_max : float
}.

Definition chart_option (p : SparkProps) (points : list Indicator.SeriesPoint) : ChartOption :=
  let dates := map Indicator.date points in
  let values := map Indicator.value points in
  let dataMin := Math_min values in
  let dataMax := Math_max values in
  let range := (dataMax - dataMin)%float in
  let padding := (range * 0x1.999999999999ap-4)%float in   (* 0.1 *)
  {| xAxis_data := dates;
     series_data := values;
     yAxis_min := match min p with Some m => m | None => (dataMin - padding)%float end;
     yAxis_max := match max p with Some m => m | None => (dataMax + padding)%float end |}.

(** Calls into the charting library, in the order made. *)
Inductive Call :=
| Init
| SetOption (option : ChartOption)
| Dispose
| Resize.

(** The refs and the state hook of one mounted component, with the calls
    made so far. *)
Record State := {
  chartRef : bool;          (* chartRef.current is a mounted element *)
  chartInstance : bool;     (* chartInstance.current holds a chart *)
  isLoaded : bool;
  cleanup : bool;           (* the last effect returned its cleanup *)
  calls : list Call
}.

Definition unmounted : State :=
  {| chartRef := false; chartInstance := false; isLoaded := false;
     cleanup := false; calls := [] |}.

Definition call (c : Call) (st : State) : State :=
  {| chartRef := chartRef st; chartInstance := chartInstance st;
     isLoaded := isLoaded st; cleanup := cleanup st; calls := calls st ++ [c] |}.

(** The function returned by the chart effect. *)
Definition run_cleanup (st : State) : State :=
  if cleanup st
  then let st := if chartInstance st then call Dispose st else st in
       {| chartRef := chartRef st; chartInstance := false;
          isLoaded := isLoaded st; cleanup := false; calls := calls st |}
  else st.

(** The chart effect, run after a render whose [data], [min] or [max]
    changed. *)
Definition chart_effect (p : SparkProps) (st : State) : State :=
  match data p with
  | Some (pt :: pts) =>
      if chartRef st
      then
        let st := if chartInstance st then st
                  else {| chartRef := chartRef st; chartInstance := true;
                          isLoaded := isLoaded st; cleanup := cleanup st;
                          calls := calls st ++ [Init] |} in
        let st := call (SetOption (chart_option p (pt :: pts))) st in
        {| chartRef := chartRef st; chartInstance := chartInstance st;
           isLoaded := true; cleanup := true; calls := calls st |}
      else st
  | _ => st
  end.

(** What the component returns. *)
Inductive View :=
| NoData (height width : Z)
| Chart (height width : Z) (partyBands : bool).

Definition render (p : SparkProps) (st : State) : View :=
  if no_data p then NoData (height p) (width p)
  else Chart (height p) (width p) (showPolitics p && isLoaded st).

(** One render with new props: the view is committed (its element carries
    the ref in both branches), the previous effect is cleaned up, the
    effect runs. *)
Definition commit (st : State) : State :=
  {| chartRef := true; chartInstance := chartInstance st;
     isLoaded := isLoaded st; cleanup := cleanup st; calls := calls st |}.

Definition update (st : State) (p : SparkProps) : State :=
  chart_effect p (run_cleanup (commit st)).

(** The component over its life: mounted, then given props one after
    another. *)
Definition run (ps : list SparkProps) : State := fold_left update ps unmounted.

(** How many charts were initialized so far. *)
Definition is_init (c : Call) : bool :=
  match c with
  | Init => true
  | _ => false
  end.

Definition inits (st : State) : nat := length (List.filter is_init (calls st)).

(** The window's resize handler. *)
Definition handleResize (st : State) : State :=
  if chartInstance st then call Resize st else st.

End Spark.

(** ** The artifact writer and the validator *)

Module Writer.

(** The metadata of a catalog entry that goes into the artifact. *)
Record Meta := {
  id : string;
  title : string;
  unit : string;
  frequency : string;
  source : Tile.Source;
  politics_overlay : bool
}.

(** Modelled from the spec: the writer's size policy ([write_outputs] is
    missing from the sources). The retained series is cut from its old end,
    here down to its [keep] newest points. *)
Definition truncate (keep : nat) (df : Indicator.DataFrame) : Indicator.DataFrame :=
  skipn (length df - keep) df.

(** Modelled from the spec: the artifact written for one indicator
    ([write_outputs] is missing from the sources): the metadata, the run's
    timestamp, the truncated series, and the snapshot of the whole
    series. *)
Definition write_artifact (meta : Meta) (now : string) (keep : nat)
    (df : Indicator.DataFrame) : Py.M Tile.IndicatorData :=
  snap <- Indicator.enrich df ;;
  Py.ret {| Tile.id := id meta;
            Tile.title := title meta;
            Tile.unit := unit meta;
            Tile.frequency := frequency meta;
            Tile.source := source meta;
            Tile.last_updated_utc := now;
            Tile.series := truncate keep df;
            Tile.snapshot := snap;
            Tile.politics_overlay := politics_overlay meta |}.

End Writer.

Module Validator.

Definition equals (o : option float) (v : float) : bool :=
  match o with
  | Some x => (x =? v)%float
  | None => false
  end.

Definition is_null (o : option float) : bool :=
  match o with
  | Some _ => false
  | None => true
  end.

(** Modelled from the spec: the validator's consistency check
    ([scripts/verify_data.py] is missing from the sources). The snapshot's
    [max] is the true maximum of the artifact's series and its [min] the
    true minimum; over an empty series both are null. *)
Definition snapshot_consistent (a : Tile.IndicatorData) : bool :=
  let values := map Indicator.value (Tile.series a) in
  let snap := Tile.snapshot a in
  match values with
  | [] => is_null (Indicator.min snap) && is_null (Indicator.max snap)
  | _ :: _ => equals (Indicator.min snap) (Pandas.smin values)
              && equals (Indicator.max snap) (Pandas.smax values)
  end.

End Validator.

(** ** The field-mapping normalizer *)

Module Normalizer.

(** Modelled from the spec: the tags of a FetchError (the fetch client and
    the adapters are missing from the sources). *)
Inductive FetchError :=
| network
| timeout
| tls
| http_status
| rate_limited
| schema_mismatch.

Definition lower_ascii (c : ascii) : ascii :=
  let n := nat_of_ascii c in
  if ((65 <=? n) && (n <=? 90))%nat then ascii_of_nat (n + 32) else c.

Fixpoint lower (s : string) : string :=
  match s with
  | EmptyString => EmptyString
  | String c s' => String (lower_ascii c) (lower s')
  end.

(** Modelled from the spec: the case-insensitive exact match of two field
    names ([adapters.ssb_px.fetch_and_normalize] is missing from the sources);
    the letters A to Z are folded onto a to z. *)
Definition same_name (a b : string) : bool := String.eqb (lower a) (lower b).

(** Modelled from the spec: a candidate is present when it matches one of
    the raw field names ([adapters.ssb_px.fetch_and_normalize] is missing from
    the sources). *)
Definition present (raw_fields : list string) (candidate : string) : bool :=
  existsb (same_name candidate) raw_fields.

(** Modelled from the spec: the normalizer's field selection
    ([adapters.ssb_px.fetch_and_normalize] is missing from the sources).
    The guess-list is scanned in order and the first candidate present
    among the raw field names is taken. *)
Definition select_field (guess raw_fields : list string) : option string :=
  List.find (present raw_fields) guess.

(** Modelled from the spec: resolving the date and the value field
    ([adapters.ssb_px.fetch_and_normalize] is missing from the sources). A
    list none of whose candidates is present is a schema mismatch. *)
Definition resolve_fields (date_field_guess value_field_guess raw_fields : list string)
  : FetchError + (string * string) :=
  match select_field date_field_guess raw_fields,
        select_field value_field_guess raw_fields with
  | Some d, Some v => inr (d, v)
  | _, _ => inl schema_mismatch
  end.

(** [c] is the first candidate of [guess] that is present. *)
Definition first_present (guess raw_fields : list string) (c : string) : Prop :=
  exists before after,
    guess = (before ++ c :: after)%list
    /\ present raw_fields c = true
    /\ Forall (fun x => present raw_fields x = false) before.

Definition none_present (guess raw_fields : list string) : Prop :=
  Forall (fun x => present raw_fields x = false) guess.

End Normalizer.

(** ** Sample data *)

Module Samples.

Definition point (d : string) (v : float) : Indicator.SeriesPoint :=
  {| Indicator.date := d; Indicator.value := v |}.

(** Thirteen monthly points: January 2024 to January 2025. *)
Definition thirteen_months : Indicator.DataFrame :=
  [ point "2024-01" 100; point "2024-02" 101; point "2024-03" 102;
    point "2024-04" 103; point "2024-05" 104; point "2024-06" 105;
    point "2024-07" 106; point "2024-08" 107; point "2024-09" 108;
    point "2024-10" 109; point "2024-11" 110; point "2024-12" 111;
    point "2025-01" 112 ].

(** The same with February 2025 added. *)
Definition fourteen_months : Indicator.DataFrame :=
  (thirteen_months ++ [ point "2025-02" 113 ])%list.

(** A series that starts from zero. *)
Definition from_zero : Indicator.DataFrame :=
  [ point "2024-01" 0; point "2024-02" 5 ].

(** A series whose largest value is its oldest. *)
Definition falling : Indicator.DataFrame :=
  [ point "2024-01" 100; point "2024-02" 1; point "2024-03" 2 ].

Definition one_point : Indicator.DataFrame := [ point "2024-01" 7 ].

Definition ssb : Tile.Source :=
  {| Tile.name := "SSB"; Tile.url := "https://www.ssb.no/en/statbank/table/03013" |}.

Definition cpi_meta : Writer.Meta :=
  {| Writer.id := "cpi"; Writer.title := "Consumer Price Index";
     Writer.unit := "Index"; Writer.frequency := "monthly";
     Writer.source := ssb; Writer.politics_overlay := true |}.

Definition entry (i t : string) : Dashboard.IndexEntry :=
  {| Dashboard.id := i; Dashboard.path := "data/" ++ i ++ "/latest.json";
     Dashboard.title := t; Dashboard.unit := "Index";
     Dashboard.frequency := "monthly"; Dashboard.politics_overlay := true |}.

(** An index of three indicators. *)
Definition index3 : Dashboard.IndexData :=
  {| Dashboard.indicators :=
       [ entry "cpi" "Consumer Price Index";
         entry "unemployment" "Unemployment";
         entry "policy_rate" "Policy rate" ];
     Dashboard.last_updated := "2025-02-01T06:00:00Z" |}.

Definition artifact (i : string) : Tile.IndicatorData :=
  {| Tile.id := i; Tile.title := i; Tile.unit := "Index";
     Tile.frequency := "monthly"; Tile.source := ssb;
     Tile.last_updated_utc := "2025-02-01T06:00:00Z";
     Tile.series := one_point;
     Tile.snapshot :=
       {| Indicator.latest_value := Some 7%float; Indicator.mom_pct := None;
          Indicator.yoy_pct := None; Indicator.min := Some 7%float;
          Indicator.max := Some 7%float |};
     Tile.politics_overlay := true |}.

(** The second indicator cannot be fetched; the two others can. *)
Definition fetch_second_fails (i : string) : Dashboard.JsError + Tile.IndicatorData :=
  if String.eqb i "unemployment"
  then inl (Dashboard.FetchError "schema_mismatch")
  else inr (artifact i).

(** An index record under the names of the design document. *)
Definition entry_with_output_location : TS.json :=
  TS.JObj [ ("id", TS.JStr "cpi");
            ("output_location", TS.JStr "data/cpi/latest.json");
            ("title", TS.JStr "Consumer Price Index");
            ("unit", TS.JStr "Index");
            ("frequency", TS.JStr "monthly");
            ("politics_overlay", TS.JBool true) ].

Definition spark_props (d : option (list Indicator.SeriesPoint)) : Spark.SparkProps :=
  {| Spark.data := d; Spark.showPolitics := false; Spark.min := None;
     Spark.max := None; Spark.height := 60; Spark.width := 300 |}.

End Samples.

(** ** Tile.tsx: the tile component *)

Module TileView.

Record TileProps := {
  data : Tile.IndicatorData;
  loading : bool;          (* false when not given *)
  error : option string
}.

(** What the component returns. *)
Inductive View :=
| ErrorView (title sourceName : string)
| FullView (className title sourceUrl sourceName : string)
    (valueText unit : string)
    (momClass momText yoyClass yoyText : string)
    (spark : Spark.SparkProps)
    (updated frequency : string).

(** The props the tile gives its sparkline; height and width are left to
    the sparkline's defaults. *)
Definition spark_props (d : Tile.IndicatorData) : Spark.SparkProps :=
  {| Spark.data := Some (Tile.series d);
     Spark.showPolitics := Tile.politics_overlay d;
     Spark.min := Indicator.min (Tile.snapshot d);
     Spark.max := Indicator.max (Tile.snapshot d);
     Spark.height := 60;
     Spark.width := 300 |}.

Section Format.

(** The helpers of [lib/format], which is not among the sources. *)
Variable formatValue : option float -> string -> string.
Variable formatDelta : option float -> string.
Variable getDeltaClass : option float -> string.
Variable formatRelativeTime : string -> string.

Definition Tile (p : TileProps) : View :=
  let d := data p in
  let snapshot := Tile.snapshot d in
  let source := Tile.source d in
  if Dashboard.truthy (error p)
  then ErrorView (Tile.title d) (Tile.name source)
  else FullView
         ("tile " ++ (if loading p then "loading" else ""))
         (Tile.title d) (Tile.url source) (Tile.name source)
         (formatValue (Indicator.latest_value snapshot) (Tile.unit d)) (Tile.unit d)
         ("delta-badge " ++ getDeltaClass (Indicator.mom_pct snapshot))
         (formatDelta (Indicator.mom_pct snapshot))
         ("delta-badge " ++ getDeltaClass (Indicator.yoy_pct snapshot))
         (formatDelta (Indicator.yoy_pct snapshot))
         (spark_props d)
         (formatRelativeTime (Tile.last_updated_utc d))
         (Tile.frequency d).

(** The tile the dashboard draws for an indicator with data: [loading] is
    false and no error is passed. *)
Definition of_dashboard (d : Tile.IndicatorData) : View :=
  Tile {| data := d; loading := false; error := None |}.

End Format.

(** The sparkline inside a view, when there is one. *)
Definition sparkline (v : View) : option Spark.SparkProps :=
  match v with
  | ErrorView _ _ => None
  | FullView _ _ _ _ _ _ _ _ _ _ spark _ _ => Some spark
  end.

End TileView.

(** ** Spark.tsx over a component's life: charts made and disposed of *)

Module SparkLife.

Definition is_dispose (c : Spark.Call) : bool :=
  match c with
  | Spark.Dispose => true
  | _ => false
  end.

Definition is_set_option (c : Spark.Call) : bool :=
  match c with
  | Spark.SetOption _ => true
  | _ => false
  end.

Definition disposes (st : Spark.State) : nat :=
  length (List.filter is_dispose (Spark.calls st)).

Definition set_options (st : Spark.State) : nat :=
  length (List.filter is_set_option (Spark.calls st)).

(** Charts initialized and not yet disposed of. *)
Definition live (st : Spark.State) : nat :=
  if Spark.chartInstance st then 1%nat else 0%nat.

Definition has_data (p : Spark.SparkProps) : bool := negb (Spark.no_data p).

(** Unmounting runs the cleanup the last chart effect returned. *)
Definition unmount (st : Spark.State) : Spark.State := Spark.run_cleanup st.

(** The calls one render adds when the component holds a chart or not and
    the props carry data or not. *)
Definition calls_of_update (held : bool) (p : Spark.SparkProps) : list Spark.Call :=
  ((if held then [Spark.Dispose] else [])
   ++ match Spark.data p with
      | Some (pt :: pts) => [Spark.Init; Spark.SetOption (Spark.chart_option p (pt :: pts))]
      | _ => []
      end)%list.

End SparkLife.

(** ** PartyBands.tsx: the bands of the political periods *)

Module PartyBands.

Record PoliticalPeriod := {
  start : string;
  end_ : string;           (* the member [end] *)
  coalition : list string;
  description : string
}.

Record Party := { name : string; color : string }.

Record GovernmentData := {
  parties : gmap string Party;
  periods : list PoliticalPeriod
}.

(** The state hooks. *)
Record State := {
  governmentData : option GovernmentData;
  loading : bool
}.

Definition initial : State := {| governmentData := None; loading := true |}.

(** What [fetch('/config/governments.json')] and [response.json()] come to:
    the fetch throws, or answers with [response.ok] or not, and the body
    parses ([Some]) or [json()] throws ([None]). *)
Inductive Fetched :=
| Threw
| Response (ok : bool) (body : option GovernmentData).

(** The effect [loadGovernmentData]: try, catch (a warning), finally. *)
Definition loadGovernmentData (r : Fetched) (st : State) : State :=
  let st :=
    match r with
    | Response true (Some d) => {| governmentData := Some d; loading := loading st |}
    | _ => st
    end in
  {| governmentData := governmentData st; loading := false |}.

(** [governmentData.parties[period.coalition[0]]?.color || '#CCCCCC'], or
    '#CCCCCC' for an empty coalition. *)
Definition coalitionColor (g : GovernmentData) (period : PoliticalPeriod) : string :=
  match coalition period with
  | [] => "#CCCCCC"
  | first :: _ =>
      match parties g !! first with
      | Some party => if String.eqb (color party) "" then "#CCCCCC" else color party
      | None => "#CCCCCC"
      end
  end.

(** [coalition.join(', ')] *)
Fixpoint join (sep : string) (l : list string) : string :=
  match l with
  | [] => ""
  | [x] => x
  | x :: rest => x ++ sep ++ join sep rest
  end.

Record Band := {
  key : string;
  left : float;            (* a percentage *)
  width : float;           (* a percentage *)
  backgroundColor : string;
  title : string
}.

Section Dates.

(** JavaScript's Date, as the time values it yields: of [new Date(s)] for a
    string, of [new Date(x)] for a number, and of [new Date()]; NaN is the
    invalid date. *)
Variable Date_parse : string -> float.
Variable Date_of_number : float -> float.
Variable Date_now : float.

Definition periodStart (period : PoliticalPeriod) : float := Date_parse (start period).

(** [new Date(period.end === '9999-12-31' ? new Date() : period.end)] *)
Definition periodEnd (period : PoliticalPeriod) : float :=
  if String.eqb (end_ period) "9999-12-31" then Date_now else Date_parse (end_ period).

Definition minDate (data : list Indicator.SeriesPoint) : float :=
  Date_of_number (Spark.Math_min (map (fun item => Date_parse (Indicator.date item)) data)).

Definition maxDate (data : list Indicator.SeriesPoint) : float :=
  Date_of_number (Spark.Math_max (map (fun item => Date_parse (Indicator.date item)) data)).

(** The periods that overlap the data. *)
Definition relevant (data : list Indicator.SeriesPoint) (period : PoliticalPeriod) : bool :=
  (periodStart period <=? maxDate data)%float && (minDate data <=? periodEnd period)%float.

Definition band (g : GovernmentData) (data : list Indicator.SeriesPoint)
    (index : nat) (period : PoliticalPeriod) : Band :=
  let totalRange := (maxDate data - minDate data)%float in
  let startPos :=
    Spark.Math_max [0%float; ((periodStart period - minDate data) / totalRange)%float] in
  let endPos :=
    Spark.Math_min [1%float; ((periodEnd period - minDate data) / totalRange)%float] in
  {| key := start period ++ "-" ++ end_ period ++ "-" ++ pretty index;
     left := (startPos * 100)%float;
     width := ((endPos - startPos) * 100)%float;
     backgroundColor := coalitionColor g period;
     title := description period ++ " (" ++ join ", " (coalition period) ++ ")" |}.

(** What the component returns: nothing ([null]), or its bands. *)
Definition render (st : State) (data : list Indicator.SeriesPoint) : option (list Band) :=
  if loading st then None
  else match governmentData st, data with
       | None, _ => None
       | Some _, [] => None
       | Some g, _ :: _ =>
           match List.filter (relevant data) (periods g) with
           | [] => None
           | relevantPeriods => Some (imap (band g data) relevantPeriods)
           end
       end.

End Dates.

End PartyBands.

(** ** Dashboard.tsx: the tile an entry ends with *)

Module DashboardView.

(** The tile of an entry once its fetch has settled: drawn from the data,
    an error tile, or, for a failure with an empty message, still the
    "Loading..." tile. *)
Definition settled_tile
    (fetchIndicatorData : string -> Dashboard.JsError + Tile.IndicatorData)
    (indicator : Dashboard.IndexEntry) : Dashboard.TileView :=
  match fetchIndicatorData (Dashboard.id indicator) with
  | inr data => Dashboard.DataTile data
  | inl error =>
      if String.eqb (Dashboard.errorMessage error) ""
      then Dashboard.LoadingTile (Dashboard.title indicator)
      else Dashboard.ErrorTile (Dashboard.title indicator) (Dashboard.errorMessage error)
  end.

(** The state once [loadDashboard] has run on a mounted dashboard whose
    index could be fetched. *)
Definition loaded
    (fetchIndicatorData : string -> Dashboard.JsError + Tile.IndicatorData)
    (index : Dashboard.IndexData) : Dashboard.State :=
  Dashboard.loadDashboard (inr index) fetchIndicatorData Dashboard.initial.

End DashboardView.

(** ** More sample data *)

Module Governments.

(** The example of [config/governments.json]. *)
Definition example : PartyBands.GovernmentData :=
  {| PartyBands.parties :=
       <[ "Ap" := {| PartyBands.name := "Arbeiderpartiet"; PartyBands.color := "#E03C31" |} ]>
       (<[ "H" := {| PartyBands.name := "Høyre"; PartyBands.color := "#005AA3" |} ]> ∅);
     PartyBands.periods :=
       [ {| PartyBands.start := "2021-10-14"; PartyBands.end_ := "9999-12-31";
            PartyBands.coalition := ["Ap"; "Sp"];
            PartyBands.description := "Current government" |} ] |}.

Definition current : PartyBands.PoliticalPeriod :=
  {| PartyBands.start := "2021-10-14"; PartyBands.end_ := "9999-12-31";
     PartyBands.coalition := ["Ap"; "Sp"];
     PartyBands.description := "Current government" |}.

(** A period led by a party the file does not list. *)
Definition unlisted : PartyBands.PoliticalPeriod :=
  {| PartyBands.start := "2013-10-16"; PartyBands.end_ := "2021-10-14";
     PartyBands.coalition := ["Frp"; "H"];
     PartyBands.description := "Earlier government" |}.

(** An artifact of three falling points, with the snapshot [enrich] gives
    them. *)
Definition falling_artifact : Tile.IndicatorData :=
  {| Tile.id := "cpi"; Tile.title := "Consumer Price Index"; Tile.unit := "Index";
     Tile.frequency := "monthly"; Tile.source := Samples.ssb;
     Tile.last_updated_utc := "2025-02-01T06:00:00Z";
     Tile.series := Samples.falling;
     Tile.snapshot :=
       {| Indicator.latest_value := Some 2%float;
          Indicator.mom_pct := Some (Indicator.pct 2 1);
          Indicator.yoy_pct := None;
          Indicator.min := Some 1%float;
          Indicator.max := Some 100%float |};
     Tile.politics_overlay := true |}.

(** Fetches that fail for every indicator, silently for the second. *)
Definition fetch_all_fail (i : string) : Dashboard.JsError + Tile.IndicatorData :=
  if String.eqb i "unemployment"
  then inl (Dashboard.FetchError "")
  else inl Dashboard.OtherError.

(** The time values of the dates used here, in milliseconds; any other
    string is an invalid date. *)
Definition Date_parse (s : string) : float :=
  if String.eqb s "2013-10-16" then 1381881600000%float
  else if String.eqb s "2021-10-14" then 1634169600000%float
  else if String.eqb s "2024-01" then 1704067200000%float
  else if String.eqb s "2024-02" then 1706745600000%float
  else if String.eqb s "2024-03" then 1709251200000%float
  else nan.

Definition Date_of_number (x : float) : float := x.

(** 1 February 2025. *)
Definition Date_now : float := 1738368000000%float.

(** A period whose start is not a date. *)
Definition undated : PartyBands.PoliticalPeriod :=
  {| PartyBands.start := "unknown"; PartyBands.end_ := "9999-12-31";
     PartyBands.coalition := ["H"];
     PartyBands.description := "Undated government" |}.

Definition fetched : PartyBands.State :=
  PartyBands.loadGovernmentData (PartyBands.Response true (Some example))
    PartyBands.initial.

End Governments.

(** ** Reading a comparison of two binary64 numbers *)

Module Cmp.

Definition below (c : option comparison) : bool :=
  match c with
  | Some Lt | Some Eq => true
  | _ => false
  end.

Definition strictly_below (c : option comparison) : bool :=
  match c with
  | Some Lt => true
  | _ => false
  end.

End Cmp.

(** * Properties *)

(** ** The order of binary64 *)

Section FloatOrder.

Ltac cmp_cases :=
  repeat match goal with
    | |- context [(?a ?= ?b)%Z] => destruct (Z.compare_spec a b); subst
    | H : context [(?a ?= ?b)%Z] |- _ => destruct (Z.compare_spec a b); subst
    | |- context [PosDef.Pos.compare_cont Eq ?a ?b] =>
        change (PosDef.Pos.compare_cont Eq a b) with (Pos.compare a b);
        destruct (Pos.compare_spec a b); subst
    | H : context [PosDef.Pos.compare_cont Eq ?a ?b] |- _ =>
        change (PosDef.Pos.compare_cont Eq a b) with (Pos.compare a b) in H;
        destruct (Pos.compare_spec a b); subst
    end;
  cbn [CompOpp] in *; try reflexivity; try discriminate; try lia.

Ltac by_cases3 a b c :=
  destruct a as [[]|[]| |[] ? ?], b as [[]|[]| |[] ? ?], c as [[]|[]| |[] ? ?];
  cbn [SFcompare Cmp.strictly_below Cmp.below];
  try discriminate; try reflexivity; intros; cmp_cases.

Lemma SFcompare_le_trans a b c :
  Cmp.below (SFcompare a b) = true ->
  Cmp.below (SFcompare b c) = true ->
  Cmp.below (SFcompare a c) = true.
Proof. by_cases3 a b c. Qed.

Lemma SFcompare_lt_le a b :
  Cmp.strictly_below (SFcompare a b) = true -> Cmp.below (SFcompare a b) = true.
Proof. destruct (SFcompare a b) as [[]|]; simpl; congruence. Qed.

Lemma SFcompare_total a b :
  SFcompare a a = Some Eq -> SFcompare b b = Some Eq ->
  Cmp.strictly_below (SFcompare b a) = false ->
  Cmp.below (SFcompare a b) = true.
Proof.
  destruct a as [[]|[]| |[] ? ?], b as [[]|[]| |[] ? ?];
    cbn [SFcompare Cmp.strictly_below Cmp.below];
    try discriminate; try reflexivity; intros; cmp_cases.
Qed.

Lemma leb_below x y : (x <=? y)%float = Cmp.below (SFcompare (Prim2SF x) (Prim2SF y)).
Proof. rewrite FloatAxioms.leb_spec. reflexivity. Qed.

Lemma ltb_strictly_below x y :
  (x <? y)%float = Cmp.strictly_below (SFcompare (Prim2SF x) (Prim2SF y)).
Proof. rewrite FloatAxioms.ltb_spec. reflexivity. Qed.

Lemma not_nan_compare x :
  is_nan x = false -> SFcompare (Prim2SF x) (Prim2SF x) = Some Eq.
Proof.
  unfold is_nan. rewrite FloatAxioms.eqb_spec. unfold SFeqb.
  destruct (SFcompare (Prim2SF x) (Prim2SF x)) as [[]|]; simpl; congruence.
Qed.

Lemma eqb_refl x : is_nan x = false -> (x =? x)%float = true.
Proof. unfold is_nan. destruct (x =? x)%float; simpl; congruence. Qed.

Lemma leb_refl x : is_nan x = false -> (x <=? x)%float = true.
Proof. intros H. rewrite leb_below, (not_nan_compare x H). reflexivity. Qed.

Lemma leb_trans x y z :
  (x <=? y)%float = true -> (y <=? z)%float = true -> (x <=? z)%float = true.
Proof. rewrite !leb_below. apply SFcompare_le_trans. Qed.

Lemma ltb_leb x y : (x <? y)%float = true -> (x <=? y)%float = true.
Proof. rewrite ltb_strictly_below, leb_below. apply SFcompare_lt_le. Qed.

Lemma not_ltb_leb x y :
  is_nan x = false -> is_nan y = false ->
  (y <? x)%float = false -> (x <=? y)%float = true.
Proof.
  intros Hx Hy. rewrite ltb_strictly_below, leb_below.
  apply SFcompare_total; now apply not_nan_compare.
Qed.

(** With a zero for denominator, binary64 division gives an infinity or
    NaN, and so does the percentage built on it. *)
Lemma zero_is_zero b : (b =? 0)%float = true -> exists s, Prim2SF b = S754_zero s.
Proof.
  rewrite FloatAxioms.eqb_spec. unfold SFeqb.
  replace (Prim2SF 0) with (S754_zero false) by (vm_compute; reflexivity).
  destruct (Prim2SF b) as [s|[]| |[] ? ?]; cbn; try discriminate.
  intros _. now exists s.
Qed.

Lemma pct_zero_denominator a b :
  (b =? 0)%float = true -> Indicator.inf_or_nan (Indicator.pct a b) = true.
Proof.
  intros Hb. destruct (zero_is_zero b Hb) as [s Hs].
  assert (Hq : Prim2SF (a / b) = S754_nan \/ exists t, Prim2SF (a / b) = S754_infinity t).
  { rewrite div_spec, Hs. unfold SF64div, SFdiv.
    destruct (Prim2SF a); eauto. }
  assert (Hr : Prim2SF (Indicator.pct a b) = S754_nan
               \/ exists t, Prim2SF (Indicator.pct a b) = S754_infinity t).
  { unfold Indicator.pct. rewrite mul_spec, sub_spec.
    replace (Prim2SF 1) with (S754_finite false 4503599627370496 (-52))
      by (vm_compute; reflexivity).
    replace (Prim2SF 100) with (S754_finite false 7036874417766400 (-46))
      by (vm_compute; reflexivity).
    destruct Hq as [-> | [t ->]]; cbn; eauto. }
  unfold Indicator.inf_or_nan, is_infinity, is_nan.
  rewrite !FloatAxioms.eqb_spec, abs_spec.
  replace (Prim2SF infinity) with (S754_infinity false) by (vm_compute; reflexivity).
  destruct Hr as [-> | [t ->]]; reflexivity.
Qed.

End FloatOrder.

(** ** pandas: positions from the end, minimum and maximum *)

Section PandasFacts.

Lemma iloc_from_end (s : list float) (k : nat) :
  (1 <= k <= length s)%nat ->
  Pandas.iloc s (- Z.of_nat k) =
    match nth_error s (length s - k) with
    | Some v => Py.ret v
    | None => Py.raise Py.IndexError
    end.
Proof.
  intros Hk. unfold Pandas.iloc.
  replace (- Z.of_nat k <? 0)%Z with true by (symmetry; apply Z.ltb_lt; lia).
  replace ((0 <=? Z.of_nat (length s) + - Z.of_nat k)
           && (Z.of_nat (length s) + - Z.of_nat k <? Z.of_nat (length s)))%Z
    with true
    by (symmetry; apply andb_true_iff; split; [apply Z.leb_le | apply Z.ltb_lt]; lia).
  replace (Z.to_nat (Z.of_nat (length s) + - Z.of_nat k)) with (length s - k)%nat by lia.
  reflexivity.
Qed.

Lemma iloc_out_of_range (s : list float) (k : nat) :
  (length s < k)%nat -> Pandas.iloc s (- Z.of_nat k) = Py.raise Py.IndexError.
Proof.
  intros Hk. unfold Pandas.iloc.
  replace (- Z.of_nat k <? 0)%Z with true by (symmetry; apply Z.ltb_lt; lia).
  replace (0 <=? Z.of_nat (length s) + - Z.of_nat k)%Z with false
    by (symmetry; apply Z.leb_gt; lia).
  reflexivity.
Qed.

Lemma notna_id (s : list float) :
  Forall (fun x => is_nan x = false) s -> Pandas.notna s = s.
Proof.
  unfold Pandas.notna. induction 1 as [|x s Hx _ IH]; simpl.
  - reflexivity.
  - rewrite Hx. simpl. now rewrite IH.
Qed.

(** The running minimum is one of the values seen and below all of them. *)
Lemma fold_min_least (xs : list float) : forall x,
  Forall (fun v => is_nan v = false) (x :: xs) ->
  let m := fold_left (fun acc y => if (y <? acc)%float then y else acc) xs x in
  In m (x :: xs) /\ is_nan m = false
  /\ forall v, In v (x :: xs) -> (m <=? v)%float = true.
Proof.
  induction xs as [|y ys IH]; intros x Hall; inversion Hall as [|? ? Hx Hrest]; subst.
  - simpl. repeat split; auto. intros v [<-|[]]. now apply leb_refl.
  - inversion Hrest as [|? ? Hy Hys]; subst. cbn [fold_left].
    set (x' := if (y <? x)%float then y else x).
    assert (Hx' : is_nan x' = false) by (subst x'; destruct (y <? x)%float; assumption).
    assert (Hle : (x' <=? x)%float = true /\ (x' <=? y)%float = true).
    { subst x'. destruct (y <? x)%float eqn:E.
      - split; [now apply ltb_leb | now apply leb_refl].
      - split; [now apply leb_refl | now apply not_ltb_leb]. }
    assert (Hin : x' = x \/ x' = y) by (subst x'; destruct (y <? x)%float; auto).
    destruct (IH x' ltac:(constructor; assumption)) as (Hm & Hnan & Hall').
    repeat split; [| exact Hnan |].
    + destruct Hm as [Hm|Hm].
      * destruct Hin as [Hi|Hi]; rewrite <- Hm, Hi; simpl; auto.
      * right; right; exact Hm.
    + intros v [<-|[<-|Hv]].
      * eapply leb_trans; [apply Hall'; now left | apply Hle].
      * eapply leb_trans; [apply Hall'; now left | apply Hle].
      * apply Hall'. now right.
Qed.

Lemma fold_max_greatest (xs : list float) : forall x,
  Forall (fun v => is_nan v = false) (x :: xs) ->
  let m := fold_left (fun acc y => if (acc <? y)%float then y else acc) xs x in
  In m (x :: xs) /\ is_nan m = false
  /\ forall v, In v (x :: xs) -> (v <=? m)%float = true.
Proof.
  induction xs as [|y ys IH]; intros x Hall; inversion Hall as [|? ? Hx Hrest]; subst.
  - simpl. repeat split; auto. intros v [<-|[]]. now apply leb_refl.
  - inversion Hrest as [|? ? Hy Hys]; subst. cbn [fold_left].
    set (x' := if (x <? y)%float then y else x).
    assert (Hx' : is_nan x' = false) by (subst x'; destruct (x <? y)%float; assumption).
    assert (Hle : (x <=? x')%float = true /\ (y <=? x')%float = true).
    { subst x'. destruct (x <? y)%float eqn:E.
      - split; [now apply ltb_leb | now apply leb_refl].
      - split; [now apply leb_refl | now apply not_ltb_leb]. }
    assert (Hin : x' = x \/ x' = y) by (subst x'; destruct (x <? y)%float; auto).
    destruct (IH x' ltac:(constructor; assumption)) as (Hm & Hnan & Hall').
    repeat split; [| exact Hnan |].
    + destruct Hm as [Hm|Hm].
      * destruct Hin as [Hi|Hi]; rewrite <- Hm, Hi; simpl; auto.
      * right; right; exact Hm.
    + intros v [<-|[<-|Hv]].
      * eapply leb_trans; [apply Hle | apply Hall'; now left].
      * eapply leb_trans; [apply Hle | apply Hall'; now left].
      * apply Hall'. now right.
Qed.

Lemma smin_least (s : list float) :
  s <> [] -> Forall (fun v => is_nan v = false) s ->
  In (Pandas.smin s) s /\ is_nan (Pandas.smin s) = false
  /\ forall v, In v s -> (Pandas.smin s <=? v)%float = true.
Proof.
  intros Hne Hall. unfold Pandas.smin. rewrite (notna_id s Hall).
  destruct s as [|x xs]; [congruence|]. now apply fold_min_least.
Qed.

Lemma smax_greatest (s : list float) :
  s <> [] -> Forall (fun v => is_nan v = false) s ->
  In (Pandas.smax s) s /\ is_nan (Pandas.smax s) = false
  /\ forall v, In v s -> (v <=? Pandas.smax s)%float = true.
Proof.
  intros Hne Hall. unfold Pandas.smax. rewrite (notna_id s Hall).
  destruct s as [|x xs]; [congruence|]. now apply fold_max_greatest.
Qed.

End PandasFacts.

(** ** The enrichment routine *)

Section EnrichFacts.

Lemma from_end_unfold (df : Indicator.DataFrame) (k : nat) :
  (1 <= k <= length df)%nat ->
  Indicator.from_end df k = nth_error (map Indicator.value df) (length df - k).
Proof.
  intros Hk. unfold Indicator.from_end.
  replace (k =? 0)%nat with false by (symmetry; apply Nat.eqb_neq; lia).
  replace (length df <? k)%nat with false by (symmetry; apply Nat.ltb_ge; lia).
  reflexivity.
Qed.

Lemma from_end_Some (df : Indicator.DataFrame) (k : nat) :
  (1 <= k <= length df)%nat -> exists v, Indicator.from_end df k = Some v.
Proof.
  intros Hk. rewrite from_end_unfold by assumption.
  destruct (nth_error (map Indicator.value df) (length df - k)) as [v|] eqn:E.
  - now exists v.
  - apply nth_error_None in E. rewrite List.length_map in E. lia.
Qed.

Lemma from_end_None (df : Indicator.DataFrame) (k : nat) :
  (length df < k)%nat -> Indicator.from_end df k = None.
Proof.
  intros Hk. unfold Indicator.from_end.
  replace (length df <? k)%nat with true by (symmetry; apply Nat.ltb_lt; lia).
  now rewrite orb_true_r.
Qed.

Lemma from_end_range (df : Indicator.DataFrame) (k : nat) (v : float) :
  Indicator.from_end df k = Some v -> (1 <= k <= length df)%nat.
Proof.
  unfold Indicator.from_end. intros H.
  destruct (k =? 0)%nat eqn:E0; [discriminate|].
  destruct (length df <? k)%nat eqn:E1; [discriminate|].
  apply Nat.eqb_neq in E0. apply Nat.ltb_ge in E1. lia.
Qed.

Lemma from_end_iloc (df : Indicator.DataFrame) (k : nat) (v : float) :
  Indicator.from_end df k = Some v ->
  Pandas.iloc (map Indicator.value df) (- Z.of_nat k) = Py.ret v.
Proof.
  intros H. pose proof (from_end_range df k v H) as Hk.
  rewrite from_end_unfold in H by assumption.
  rewrite iloc_from_end by (rewrite List.length_map; lia).
  rewrite List.length_map, H. reflexivity.
Qed.

(** On a series with a last point, [enrich] returns, and this is what it
    returns. *)
Lemma enrich_returns (df : Indicator.DataFrame) (last : float) :
  Indicator.from_end df 1 = Some last ->
  Indicator.enrich df =
    Py.ret {| Indicator.latest_value := Some last;
              Indicator.mom_pct :=
                Indicator.pct_opt (Some last) (Indicator.from_end df 2);
              Indicator.yoy_pct :=
                if (13 <? length df)%nat
                then Indicator.pct_opt (Some last) (Indicator.from_end df 13)
                else None;
              Indicator.min := Some (Pandas.smin (map Indicator.value df));
              Indicator.max := Some (Pandas.smax (map Indicator.value df)) |}.
Proof.
  intros Hlast. pose proof (from_end_range _ _ _ Hlast) as Hlen.
  unfold Indicator.enrich. rewrite List.length_map.
  change (-1)%Z with (- Z.of_nat 1)%Z.
  change (-2)%Z with (- Z.of_nat 2)%Z.
  change (-13)%Z with (- Z.of_nat 13)%Z.
  rewrite (from_end_iloc df 1 last Hlast). unfold Py.ret. cbn [Py.bind].
  destruct (1 <? length df)%nat eqn:E1.
  - apply Nat.ltb_lt in E1.
    destruct (from_end_Some df 2 ltac:(lia)) as [prev Hprev].
    rewrite (from_end_iloc df 2 prev Hprev), Hprev. unfold Py.ret. cbn [Py.bind].
    destruct (13 <? length df)%nat eqn:E13.
    + apply Nat.ltb_lt in E13.
      destruct (from_end_Some df 13 ltac:(lia)) as [old Hold].
      rewrite (from_end_iloc df 13 old Hold), Hold. reflexivity.
    + reflexivity.
  - apply Nat.ltb_ge in E1.
    rewrite (from_end_None df 2) by lia.
    replace (13 <? length df)%nat with false by (symmetry; apply Nat.ltb_ge; lia).
    reflexivity.
Qed.

Lemma enrich_raises_on_empty : Indicator.enrich [] = Py.raise Py.IndexError.
Proof. reflexivity. Qed.

(** With 14 points or more, [yoy_pct] is the change from the point 12
    positions before the last. *)
Lemma enrich_yoy_14_points (df : Indicator.DataFrame) :
  (14 <= length df)%nat ->
  exists snap last old,
    Indicator.enrich df = Py.ret snap
    /\ Indicator.from_end df 1 = Some last
    /\ Indicator.from_end df 13 = Some old
    /\ Indicator.yoy_pct snap = Some (Indicator.pct last old).
Proof.
  intros Hlen.
  destruct (from_end_Some df 1 ltac:(lia)) as [last Hlast].
  destruct (from_end_Some df 13 ltac:(lia)) as [old Hold].
  eexists _, last, old. split; [apply (enrich_returns df last Hlast)|].
  repeat split; try assumption. cbn [Indicator.yoy_pct].
  replace (13 <? length df)%nat with true by (symmetry; apply Nat.ltb_lt; lia).
  rewrite Hold. reflexivity.
Qed.

(** With 1 to 12 points there is no point 12 positions back, and
    [yoy_pct] is null. *)
Lemma enrich_yoy_short (df : Indicator.DataFrame) :
  (1 <= length df <= 12)%nat ->
  exists snap,
    Indicator.enrich df = Py.ret snap
    /\ Indicator.from_end df 13 = None
    /\ Indicator.yoy_pct snap = None.
Proof.
  intros Hlen.
  destruct (from_end_Some df 1 ltac:(lia)) as [last Hlast].
  eexists. split; [apply (enrich_returns df last Hlast)|].
  split; [apply from_end_None; lia|]. cbn [Indicator.yoy_pct].
  replace (13 <? length df)%nat with false by (symmetry; apply Nat.ltb_ge; lia).
  reflexivity.
Qed.

(** With 2 points or more, [mom_pct] is the change from the point before
    the last; with exactly one point it is null. *)
Lemma enrich_mom_2_points (df : Indicator.DataFrame) :
  (2 <= length df)%nat ->
  exists snap last prev,
    Indicator.enrich df = Py.ret snap
    /\ Indicator.from_end df 1 = Some last
    /\ Indicator.from_end df 2 = Some prev
    /\ Indicator.mom_pct snap = Some (Indicator.pct last prev).
Proof.
  intros Hlen.
  destruct (from_end_Some df 1 ltac:(lia)) as [last Hlast].
  destruct (from_end_Some df 2 ltac:(lia)) as [prev Hprev].
  eexists _, last, prev. split; [apply (enrich_returns df last Hlast)|].
  repeat split; try assumption. cbn [Indicator.mom_pct].
  rewrite Hprev. reflexivity.
Qed.

Lemma enrich_mom_1_point (df : Indicator.DataFrame) :
  length df = 1%nat ->
  exists snap, Indicator.enrich df = Py.ret snap /\ Indicator.mom_pct snap = None.
Proof.
  intros Hlen.
  destruct (from_end_Some df 1 ltac:(lia)) as [last Hlast].
  eexists. split; [apply (enrich_returns df last Hlast)|].
  cbn [Indicator.mom_pct]. rewrite from_end_None by lia. reflexivity.
Qed.

Lemma enrich_latest_value (df : Indicator.DataFrame) :
  df <> [] ->
  exists snap last,
    Indicator.enrich df = Py.ret snap
    /\ Indicator.from_end df 1 = Some last
    /\ Indicator.latest_value snap = Some last.
Proof.
  intros Hne.
  assert (Hlen : (1 <= length df)%nat) by (destruct df; [congruence | simpl; lia]).
  destruct (from_end_Some df 1 ltac:(lia)) as [last Hlast].
  eexists _, last. split; [apply (enrich_returns df last Hlast)|]. now split.
Qed.

End EnrichFacts.

(** ** Claims on the enrichment routine *)

(** C1 (the routine departs from the claim). On a series of exactly 13
    points the point 12 positions before the last exists, and yet [enrich]
    gives a null [yoy_pct]: its guard asks for more than 13 points. *)
Theorem yoy_pct_null_at_13_points (df : Indicator.DataFrame) :
  length df = 13%nat ->
  exists snap last old,
    Indicator.enrich df = Py.ret snap
    /\ Indicator.from_end df 1 = Some last
    /\ Indicator.from_end df 13 = Some old
    /\ Indicator.yoy_pct snap = None.
Proof.
  intros Hlen.
  destruct (from_end_Some df 1 ltac:(lia)) as [last Hlast].
  destruct (from_end_Some df 13 ltac:(lia)) as [old Hold].
  eexists _, last, old. split; [apply (enrich_returns df last Hlast)|].
  repeat split; try assumption. cbn [Indicator.yoy_pct].
  rewrite Hlen. reflexivity.
Qed.

Lemma yoy_pct_null_at_13_points_witness :
  exists snap,
    Indicator.enrich Samples.thirteen_months = Py.ret snap
    /\ Indicator.from_end Samples.thirteen_months 1 = Some 112%float
    /\ Indicator.from_end Samples.thirteen_months 13 = Some 100%float
    /\ Indicator.yoy_pct snap = None.
Proof.
  destruct (yoy_pct_null_at_13_points Samples.thirteen_months eq_refl)
    as (snap & last & old & He & _ & _ & Hy).
  exists snap. split; [exact He|].
  split; [reflexivity|]. split; [reflexivity | exact Hy].
Defined.

(** C4 (the routine departs from the claim). On the empty series [enrich]
    raises IndexError at [s.iloc[-1]]: there is no snapshot, hence no null
    [latest_value]. *)
Theorem enrich_empty_series_raises :
  Indicator.enrich [] = Py.raise Py.IndexError.
Proof. reflexivity. Qed.

(** C5 (the routine departs from the claim on the empty series only). By the
    number of points: none, [enrich] raises IndexError before [mom_pct] is
    looked at; one, [mom_pct] is null; two or more, [mom_pct] is the change
    from the point before the last to the last. *)
Theorem mom_pct_by_length (df : Indicator.DataFrame) :
  match length df with
  | 0%nat => Indicator.enrich df = Py.raise Py.IndexError
  | 1%nat =>
      exists snap, Indicator.enrich df = Py.ret snap /\ Indicator.mom_pct snap = None
  | _ =>
      exists snap last prev,
        Indicator.enrich df = Py.ret snap
        /\ Indicator.from_end df 1 = Some last
        /\ Indicator.from_end df 2 = Some prev
        /\ Indicator.mom_pct snap = Some (Indicator.pct last prev)
  end.
Proof.
  destruct (length df) as [|[|n]] eqn:Hlen.
  - destruct df; [reflexivity | discriminate].
  - now apply enrich_mom_1_point.
  - apply enrich_mom_2_points. lia.
Qed.

(** C3, as amended. On a non-empty series a zero denominator is not caught:
    when the point before the last is zero, [mom_pct] is the binary64 value of
    the formula, an infinity or NaN, and not null; so is [yoy_pct] when the
    series has 14 points or more and the point 12 positions before the last is
    zero. A delta whose denominator point is missing from the series is
    null. *)
Theorem delta_with_zero_or_missing_denominator
    (df : Indicator.DataFrame) (last : float) :
  Indicator.from_end df 1 = Some last ->
  exists snap,
    Indicator.enrich df = Py.ret snap
    /\ (forall prev,
          Indicator.from_end df 2 = Some prev -> (prev =? 0)%float = true ->
          Indicator.mom_pct snap = Some (Indicator.pct last prev)
          /\ Indicator.inf_or_nan (Indicator.pct last prev) = true)
    /\ (Indicator.from_end df 2 = None -> Indicator.mom_pct snap = None)
    /\ (forall old,
          (14 <= length df)%nat ->
          Indicator.from_end df 13 = Some old -> (old =? 0)%float = true ->
          Indicator.yoy_pct snap = Some (Indicator.pct last old)
          /\ Indicator.inf_or_nan (Indicator.pct last old) = true)
    /\ (Indicator.from_end df 13 = None -> Indicator.yoy_pct snap = None).
Proof.
  intros Hlast. eexists. split; [apply (enrich_returns df last Hlast)|].
  cbn [Indicator.mom_pct Indicator.yoy_pct].
  split; [|split; [|split]].
  - intros prev Hprev Hzero. rewrite Hprev.
    split; [reflexivity | now apply pct_zero_denominator].
  - intros ->. reflexivity.
  - intros old Hlen Hold Hzero.
    replace (13 <? length df)%nat with true by (symmetry; apply Nat.ltb_lt; lia).
    rewrite Hold. split; [reflexivity | now apply pct_zero_denominator].
  - intros ->. now destruct (13 <? length df)%nat.
Qed.

Lemma delta_with_zero_or_missing_denominator_witness :
  exists snap,
    Indicator.enrich Samples.from_zero = Py.ret snap
    /\ Indicator.mom_pct snap = Some (Indicator.pct 5 0)
    /\ Indicator.inf_or_nan (Indicator.pct 5 0) = true
    /\ Indicator.yoy_pct snap = None.
Proof.
  destruct (delta_with_zero_or_missing_denominator Samples.from_zero 5%float eq_refl)
    as (snap & He & Hmom & _ & _ & Hyoy).
  exists snap. split; [exact He|].
  destruct (Hmom 0%float eq_refl eq_refl) as [Hm Hi].
  split; [exact Hm|]. split; [exact Hi | exact (Hyoy eq_refl)].
Defined.

(** C3 as stated fails: the point before the last is zero, and [mom_pct] is
    plus infinity, not null. *)
Lemma mom_pct_infinite_on_zero_denominator :
  Indicator.from_end Samples.from_zero 2 = Some 0%float
  /\ Indicator.enrich Samples.from_zero =
       Py.ret {| Indicator.latest_value := Some 5%float;
                 Indicator.mom_pct := Some infinity;
                 Indicator.yoy_pct := None;
                 Indicator.min := Some 0%float;
                 Indicator.max := Some 5%float |}.
Proof. split; vm_compute; reflexivity. Qed.

(** ** The snapshot's extremes, the writer and the validator *)

Section ArtifactFacts.

Lemma truncate_all (keep : nat) (df : Indicator.DataFrame) :
  (length df <= keep)%nat -> Writer.truncate keep df = df.
Proof.
  intros H. unfold Writer.truncate.
  replace (length df - keep)%nat with 0%nat by lia. reflexivity.
Qed.

Lemma no_missing_values (df : Indicator.DataFrame) :
  Indicator.no_missing df ->
  Forall (fun v => is_nan v = false) (map Indicator.value df).
Proof.
  unfold Indicator.no_missing. induction 1; simpl; constructor; assumption.
Qed.

Lemma smin_least_of (df : Indicator.DataFrame) :
  df <> [] -> Indicator.no_missing df ->
  Indicator.least_of df (Pandas.smin (map Indicator.value df)).
Proof.
  intros Hne Hnm.
  destruct (smin_least (map Indicator.value df)) as (Hin & _ & Hle).
  - destruct df; [congruence | discriminate].
  - now apply no_missing_values.
  - split; [exact Hin|]. intros p Hp. apply Hle. now apply in_map.
Qed.

Lemma smax_greatest_of (df : Indicator.DataFrame) :
  df <> [] -> Indicator.no_missing df ->
  Indicator.greatest_of df (Pandas.smax (map Indicator.value df)).
Proof.
  intros Hne Hnm.
  destruct (smax_greatest (map Indicator.value df)) as (Hin & _ & Hle).
  - destruct df; [congruence | discriminate].
  - now apply no_missing_values.
  - split; [exact Hin|]. intros p Hp. apply Hle. now apply in_map.
Qed.

End ArtifactFacts.




(** ** The normalizer's guess-lists *)

Section NormalizerFacts.

Lemma select_field_first (raw_fields : list string) : forall guess,
  match Normalizer.select_field guess raw_fields with
  | Some c => Normalizer.first_present guess raw_fields c
  | None => Normalizer.none_present guess raw_fields
  end.
Proof.
  unfold Normalizer.select_field, Normalizer.first_present, Normalizer.none_present.
  induction guess as [|g guess IH]; cbn [List.find].
  - constructor.
  - destruct (Normalizer.present raw_fields g) eqn:Eg.
    + exists [], guess. repeat split; [exact Eg | constructor].
    + destruct (List.find (Normalizer.present raw_fields) guess) as [c|].
      * destruct IH as (before & after & -> & Hc & Hb).
        exists (g :: before), after. repeat split; [exact Hc | now constructor].
      * now constructor.
Qed.

(** The first present candidate is unique, so it is the one selected. *)
Lemma first_present_selected (raw_fields guess : list string) (c : string) :
  Normalizer.first_present guess raw_fields c ->
  Normalizer.select_field guess raw_fields = Some c.
Proof.
  intros (before & after & -> & Hc & Hb). unfold Normalizer.select_field.
  induction Hb as [|b before Hb _ IH]; cbn [List.find app].
  - now rewrite Hc.
  - now rewrite Hb.
Qed.

Lemma none_present_selected (raw_fields guess : list string) :
  Normalizer.none_present guess raw_fields ->
  Normalizer.select_field guess raw_fields = None.
Proof.
  unfold Normalizer.none_present, Normalizer.select_field.
  induction 1 as [|g guess Hg _ IH]; cbn [List.find]; [reflexivity|].
  now rewrite Hg.
Qed.

(** Matching ignores the case of ASCII letters. *)
Lemma same_name_example :
  Normalizer.same_name "TID" "Tid" = true
  /\ Normalizer.same_name "time" "Tid" = false.
Proof. split; reflexivity. Qed.

End NormalizerFacts.


(** ** The shapes read by the web client *)

Section ShapeFacts.

Lemma number_or_null_conforms (o : option float) :
  TS.conforms Tile.number_or_null (Tile.json_of_number o) = true.
Proof. destruct o; reflexivity. Qed.

Lemma snapshot_conforms (s : Indicator.Snapshot) :
  TS.conforms Tile.Snapshot_t (Tile.json_of_snapshot s) = true.
Proof.
  destruct s as [l m y lo hi]. cbn.
  destruct l, m, y, lo, hi; reflexivity.
Qed.

Lemma points_conform (l : list Indicator.SeriesPoint) :
  forallb (TS.conforms Tile.SeriesPoint_t) (map Tile.json_of_point l) = true.
Proof. induction l as [|p l IH]; [reflexivity|]. cbn [map forallb]. now rewrite IH. Qed.

Lemma indicator_conforms (a : Tile.IndicatorData) :
  TS.conforms Tile.IndicatorData_t (Tile.json_of_indicator a) = true.
Proof.
  unfold Tile.IndicatorData_t, Tile.json_of_indicator.
  cbn -[Tile.SeriesPoint_t Tile.Snapshot_t Tile.json_of_snapshot Tile.json_of_point forallb].
  rewrite points_conform, snapshot_conforms. reflexivity.
Qed.

Lemma entries_conform (l : list Dashboard.IndexEntry) :
  forallb (TS.conforms Dashboard.IndexEntry_t) (map Dashboard.json_of_entry l) = true.
Proof. induction l as [|e l IH]; [reflexivity|]. cbn [map forallb]. now rewrite IH. Qed.

Lemma index_conforms (i : Dashboard.IndexData) :
  TS.conforms Dashboard.IndexData_t (Dashboard.json_of_index i) = true.
Proof.
  unfold Dashboard.IndexData_t, Dashboard.json_of_index.
  cbn -[Dashboard.IndexEntry_t Dashboard.json_of_entry forallb].
  rewrite entries_conform. reflexivity.
Qed.

Lemma snapshot_fields_nullable (k : string) (t : TS.type) :
  TS.field Tile.Snapshot_t k = Some t ->
  TS.nullable t = true /\ forall x, TS.conforms t (TS.JNum x) = true.
Proof.
  unfold Tile.Snapshot_t. cbn [TS.field TS.assoc].
  repeat match goal with
         | |- context [String.eqb k ?s] => destruct (String.eqb k s)
         end;
    intros [= <-] || discriminate; split; reflexivity.
Qed.

End ShapeFacts.

(** C8. The artifact read by a tile has exactly the members id, title, unit,
    frequency, source (name, url), last_updated_utc, series (a list of date
    and value), snapshot and politics_overlay; the snapshot has exactly
    latest_value, mom_pct, yoy_pct, min and max, each a number or null; every
    record of the type is a document of that shape. *)
Theorem IndicatorData_shape :
  TS.field_names Tile.IndicatorData_t
    = ["id"; "title"; "unit"; "frequency"; "source"; "last_updated_utc";
       "series"; "snapshot"; "politics_overlay"]
  /\ TS.field Tile.IndicatorData_t "source" = Some Tile.Source_t
  /\ TS.field_names Tile.Source_t = ["name"; "url"]
  /\ TS.field Tile.IndicatorData_t "series" = Some (TS.TArray Tile.SeriesPoint_t)
  /\ TS.field_names Tile.SeriesPoint_t = ["date"; "value"]
  /\ TS.field Tile.IndicatorData_t "snapshot" = Some Tile.Snapshot_t
  /\ TS.field_names Tile.Snapshot_t
     = ["latest_value"; "mom_pct"; "yoy_pct"; "min"; "max"]
  /\ (forall k t, TS.field Tile.Snapshot_t k = Some t ->
                  TS.nullable t = true /\ forall x, TS.conforms t (TS.JNum x) = true)
  /\ (forall a : Tile.IndicatorData,
        TS.conforms Tile.IndicatorData_t (Tile.json_of_indicator a) = true).
Proof.
  repeat split; try reflexivity.
  - now apply (snapshot_fields_nullable k t).
  - now apply (snapshot_fields_nullable k t).
  - apply indicator_conforms.
Qed.

(** ** Loading the dashboard *)

Section LoadFacts.

Variable fetchIndicatorData : string -> Dashboard.JsError + Tile.IndicatorData.

(** The state after the body has run for one entry. *)
Lemma load_each_cons (st : Dashboard.State) (ind : Dashboard.IndexEntry)
    (inds : list Dashboard.IndexEntry) :
  Dashboard.load_each fetchIndicatorData st (ind :: inds)
  = let st1 := fst (Dashboard.load_one fetchIndicatorData st ind) in
    (fst (Dashboard.load_each fetchIndicatorData st1 inds),
     Dashboard.settled fetchIndicatorData ind
       :: snd (Dashboard.load_each fetchIndicatorData st1 inds)).
Proof.
  cbn [Dashboard.load_each]. unfold Dashboard.load_one, Dashboard.settled.
  destruct (fetchIndicatorData (Dashboard.id ind)); cbn [fst];
    now destruct (Dashboard.load_each fetchIndicatorData _ inds).
Qed.

Lemma load_each_results (inds : list Dashboard.IndexEntry) : forall st,
  snd (Dashboard.load_each fetchIndicatorData st inds)
  = map (Dashboard.settled fetchIndicatorData) inds.
Proof.
  induction inds as [|ind inds IH]; intros st; [reflexivity|].
  rewrite load_each_cons. cbn [snd map]. now rewrite IH.
Qed.

(** Only [errors] changes while the entries are loaded. *)
Lemma load_each_frame (inds : list Dashboard.IndexEntry) : forall st,
  let st' := fst (Dashboard.load_each fetchIndicatorData st inds) in
  Dashboard.indexData st' = Dashboard.indexData st
  /\ Dashboard.indicatorData st' = Dashboard.indicatorData st
  /\ Dashboard.loading st' = Dashboard.loading st
  /\ Dashboard.lastUpdated st' = Dashboard.lastUpdated st.
Proof.
  induction inds as [|ind inds IH]; intros st; [now cbn|].
  cbv zeta. rewrite load_each_cons. cbn [fst].
  destruct (IH (fst (Dashboard.load_one fetchIndicatorData st ind)))
    as (-> & -> & -> & ->).
  unfold Dashboard.load_one.
  now destruct (fetchIndicatorData (Dashboard.id ind)).
Qed.

(** An entry whose fetch fails gets its message; the other keys of
    [errors] stay as they were. *)
Lemma load_each_errors (inds : list Dashboard.IndexEntry) : forall st (k : string),
  Dashboard.errors (fst (Dashboard.load_each fetchIndicatorData st inds)) !! k
  = match fetchIndicatorData k with
    | inl e =>
        if bool_decide (k ∈ map Dashboard.id inds)
        then Some (Dashboard.errorMessage e)
        else Dashboard.errors st !! k
    | inr _ => Dashboard.errors st !! k
    end.
Proof.
  induction inds as [|ind inds IH]; intros st k.
  - cbn. destruct (fetchIndicatorData k); [|reflexivity].
    rewrite bool_decide_eq_false_2; [reflexivity | apply not_elem_of_nil].
  - rewrite load_each_cons. cbn [fst map]. rewrite IH. clear IH.
    unfold Dashboard.load_one.
    destruct (fetchIndicatorData k) as [ek|dk] eqn:Ek;
      destruct (fetchIndicatorData (Dashboard.id ind)) as [e|d] eqn:E;
      cbn [fst Dashboard.errors Dashboard.setErrors].
    + destruct (decide (k = Dashboard.id ind)) as [->|Hne].
      * rewrite E in Ek. injection Ek as <-.
        rewrite (bool_decide_eq_true_2 (_ ∈ _ :: _)) by (apply elem_of_cons; now left).
        rewrite lookup_insert_eq. now destruct (bool_decide _).
      * rewrite lookup_insert_ne by congruence.
        destruct (bool_decide (k ∈ map Dashboard.id inds)) eqn:Ein.
        -- apply bool_decide_eq_true in Ein.
           rewrite bool_decide_eq_true_2; [reflexivity | apply elem_of_cons; now right].
        -- apply bool_decide_eq_false in Ein.
           rewrite bool_decide_eq_false_2; [reflexivity|].
           rewrite elem_of_cons. intros [?|?]; contradiction.
    + destruct (decide (k = Dashboard.id ind)) as [->|Hne]; [congruence|].
      destruct (bool_decide (k ∈ map Dashboard.id inds)) eqn:Ein.
      * apply bool_decide_eq_true in Ein.
        rewrite bool_decide_eq_true_2; [reflexivity | apply elem_of_cons; now right].
      * apply bool_decide_eq_false in Ein.
        rewrite bool_decide_eq_false_2; [reflexivity|].
        rewrite elem_of_cons. intros [?|?]; contradiction.
    + destruct (decide (k = Dashboard.id ind)) as [->|Hne]; [congruence|].
      now rewrite lookup_insert_ne by congruence.
    + reflexivity.
Qed.

(** The fetches settle in any order: the errors recorded do not depend on
    it. *)
Lemma load_each_errors_any_order (inds inds' : list Dashboard.IndexEntry)
    (st : Dashboard.State) (k : string) :
  Permutation inds inds' ->
  Dashboard.errors (fst (Dashboard.load_each fetchIndicatorData st inds)) !! k
  = Dashboard.errors (fst (Dashboard.load_each fetchIndicatorData st inds')) !! k.
Proof.
  intros Hperm. rewrite !load_each_errors.
  destruct (fetchIndicatorData k); [|reflexivity].
  rewrite (bool_decide_ext (k ∈ map Dashboard.id inds) (k ∈ map Dashboard.id inds'));
    [reflexivity|].
  rewrite !list_elem_of_In.
  split; apply Permutation_in; [|symmetry]; now apply Permutation_map.
Qed.

Lemma collect_lookup (inds : list Dashboard.IndexEntry) :
  forall (acc : gmap string Tile.IndicatorData) (k : string),
  fold_left (fun acc r =>
               match snd r with
               | Some data => <[fst r := data]> acc
               | None => acc
               end) (map (Dashboard.settled fetchIndicatorData) inds) acc !! k
  = match fetchIndicatorData k with
    | inr d => if bool_decide (k ∈ map Dashboard.id inds) then Some d else acc !! k
    | inl _ => acc !! k
    end.
Proof.
  induction inds as [|ind inds IH]; intros acc k.
  - cbn. destruct (fetchIndicatorData k); [reflexivity|].
    rewrite bool_decide_eq_false_2; [reflexivity | apply not_elem_of_nil].
  - cbn [map fold_left]. rewrite IH. clear IH. unfold Dashboard.settled. cbn [fst snd].
    destruct (fetchIndicatorData k) as [ek|dk] eqn:Ek.
    + destruct (fetchIndicatorData (Dashboard.id ind)) as [e|d] eqn:E; [reflexivity|].
      destruct (decide (k = Dashboard.id ind)) as [->|Hne]; [congruence|].
      now rewrite lookup_insert_ne by congruence.
    + destruct (bool_decide (k ∈ map Dashboard.id inds)) eqn:Ein.
      * apply bool_decide_eq_true in Ein.
        rewrite bool_decide_eq_true_2; [reflexivity | apply elem_of_cons; now right].
      * apply bool_decide_eq_false in Ein.
        destruct (decide (k = Dashboard.id ind)) as [->|Hne].
        -- rewrite Ek, lookup_insert_eq.
           rewrite bool_decide_eq_true_2; [reflexivity | apply elem_of_cons; now left].
        -- rewrite bool_decide_eq_false_2
             by (rewrite elem_of_cons; intros [?|?]; contradiction).
           destruct (fetchIndicatorData (Dashboard.id ind)); [reflexivity|].
           now rewrite lookup_insert_ne by congruence.
Qed.

End LoadFacts.



(** C9, as amended. The index read by the dashboard is a list of records, in
    order, each with exactly the members id, path, title, unit, frequency and
    politics_overlay (the output location goes under the name path), and a
    run-level last_updated; every record of the type is a document of that
    shape, and the loader keeps the index as fetched, with its timestamp, and
    draws one tile per record in the index's order. *)
Theorem IndexData_shape :
  TS.field_names Dashboard.IndexData_t = ["indicators"; "last_updated"]
  /\ TS.field Dashboard.IndexData_t "indicators" = Some (TS.TArray Dashboard.IndexEntry_t)
  /\ TS.field Dashboard.IndexData_t "last_updated" = Some TS.TString
  /\ TS.field_names Dashboard.IndexEntry_t
     = ["id"; "path"; "title"; "unit"; "frequency"; "politics_overlay"]
  /\ (forall i : Dashboard.IndexData,
        TS.conforms Dashboard.IndexData_t (Dashboard.json_of_index i) = true)
  /\ (forall fetchIndicatorData (index : Dashboard.IndexData),
        let st := Dashboard.loadDashboard (inr index) fetchIndicatorData
                    Dashboard.initial in
        Dashboard.indexData st = Some index
        /\ Dashboard.lastUpdated st = Dashboard.last_updated index
        /\ Dashboard.render st
           = Dashboard.Grid (Dashboard.last_updated index)
               (map (Dashboard.render_entry st) (Dashboard.indicators index))).
Proof.
  repeat split; try reflexivity.
  - apply index_conforms.
  - unfold Dashboard.loadDashboard.
    destruct (Dashboard.load_each fetchIndicatorData _ (Dashboard.indicators index))
      as [st1 rs] eqn:E.
    pose proof (load_each_frame fetchIndicatorData (Dashboard.indicators index)
                  (Dashboard.setLastUpdated (Dashboard.last_updated index)
                     (Dashboard.setIndexData (Some index)
                        (Dashboard.setLoading true Dashboard.initial)))) as H.
    rewrite E in H. cbn in H. destruct H as (H & _). cbn. exact H.
  - unfold Dashboard.loadDashboard.
    destruct (Dashboard.load_each fetchIndicatorData _ (Dashboard.indicators index))
      as [st1 rs] eqn:E.
    pose proof (load_each_frame fetchIndicatorData (Dashboard.indicators index)
                  (Dashboard.setLastUpdated (Dashboard.last_updated index)
                     (Dashboard.setIndexData (Some index)
                        (Dashboard.setLoading true Dashboard.initial)))) as H.
    rewrite E in H. cbn in H. destruct H as (_ & _ & _ & H). cbn. exact H.
  - unfold Dashboard.loadDashboard.
    destruct (Dashboard.load_each fetchIndicatorData _ (Dashboard.indicators index))
      as [st1 rs] eqn:E.
    pose proof (load_each_frame fetchIndicatorData (Dashboard.indicators index)
                  (Dashboard.setLastUpdated (Dashboard.last_updated index)
                     (Dashboard.setIndexData (Some index)
                        (Dashboard.setLoading true Dashboard.initial)))) as H.
    rewrite E in H. cbn in H. destruct H as (Hi & _ & _ & Hl).
    unfold Dashboard.render.
    cbn [Dashboard.loading Dashboard.setLoading Dashboard.indexData
         Dashboard.setIndicatorData Dashboard.lastUpdated].
    rewrite Hi, Hl. reflexivity.
Qed.

(** C9 as stated fails: the records of the index have no member named
    output_location, and a record written under that name is not of the type
    the dashboard reads. *)
Lemma IndexEntry_has_no_output_location :
  TS.field Dashboard.IndexEntry_t "output_location" = None
  /\ TS.field Dashboard.IndexEntry_t "path" = Some TS.TString
  /\ TS.conforms Dashboard.IndexEntry_t Samples.entry_with_output_location = false.
Proof. repeat split; reflexivity. Qed.

(** ** The sparkline *)

Section SparkFacts.

Lemma inits_call (c : Spark.Call) (st : Spark.State) :
  Spark.inits (Spark.call c st)
  = (Spark.inits st + if Spark.is_init c then 1 else 0)%nat.
Proof.
  unfold Spark.inits, Spark.call. cbn [Spark.calls].
  rewrite List.filter_app, List.length_app. cbn [List.filter].
  now destruct (Spark.is_init c).
Qed.

Lemma inits_commit (st : Spark.State) : Spark.inits (Spark.commit st) = Spark.inits st.
Proof. reflexivity. Qed.

Lemma inits_run_cleanup (st : Spark.State) :
  Spark.inits (Spark.run_cleanup st) = Spark.inits st.
Proof.
  unfold Spark.run_cleanup. destruct (Spark.cleanup st); [|reflexivity].
  destruct (Spark.chartInstance st); [|reflexivity].
  change (Spark.inits (Spark.call Spark.Dispose st) = Spark.inits st).
  rewrite inits_call. cbn. lia.
Qed.

Lemma chart_effect_no_data (p : Spark.SparkProps) (st : Spark.State) :
  Spark.no_data p = true -> Spark.chart_effect p st = st.
Proof.
  unfold Spark.no_data, Spark.chart_effect.
  destruct (Spark.data p) as [[|pt pts]|]; [reflexivity | discriminate | reflexivity].
Qed.

Lemma update_no_data (p : Spark.SparkProps) (st : Spark.State) :
  Spark.no_data p = true -> Spark.inits (Spark.update st p) = Spark.inits st.
Proof.
  intros H. unfold Spark.update. rewrite (chart_effect_no_data p _ H).
  now rewrite inits_run_cleanup, inits_commit.
Qed.

Lemma run_no_data (ps : list Spark.SparkProps) : forall st,
  Forall (fun p => Spark.no_data p = true) ps ->
  Spark.inits (fold_left Spark.update ps st) = Spark.inits st.
Proof.
  induction ps as [|p ps IH]; intros st Hall; [reflexivity|].
  inversion Hall as [|? ? Hp Hps]; subst. cbn [fold_left].
  rewrite IH by assumption. now apply update_no_data.
Qed.

(** A chart instance is held exactly while a cleanup is registered. *)
Lemma run_instance (ps : list Spark.SparkProps) : forall st,
  Spark.chartInstance st = Spark.cleanup st ->
  Spark.chartInstance (fold_left Spark.update ps st)
  = Spark.cleanup (fold_left Spark.update ps st).
Proof.
  induction ps as [|p ps IH]; intros st Hst; [exact Hst|].
  cbn [fold_left]. apply IH.
  unfold Spark.update, Spark.chart_effect, Spark.run_cleanup, Spark.commit.
  cbn [Spark.cleanup Spark.chartInstance Spark.chartRef]. rewrite <- Hst.
  destruct (Spark.data p) as [[|pt pts]|], (Spark.chartInstance st); reflexivity.
Qed.

Lemma cleanup_drops_instance (st : Spark.State) :
  Spark.chartInstance st = Spark.cleanup st ->
  Spark.chartInstance (Spark.run_cleanup (Spark.commit st)) = false
  /\ Spark.chartRef (Spark.run_cleanup (Spark.commit st)) = true.
Proof.
  intros Hst. unfold Spark.run_cleanup, Spark.commit.
  cbn [Spark.cleanup Spark.chartInstance Spark.chartRef]. rewrite <- Hst.
  destruct (Spark.chartInstance st); split; reflexivity.
Qed.

End SparkFacts.


(** ** Worked examples *)

(** Fourteen monthly points: the year-over-year change compares February
    2025 with February 2024, the point 12 positions earlier. *)
Example enrich_fourteen_months :
  Indicator.enrich Samples.fourteen_months =
    Py.ret {| Indicator.latest_value := Some 113%float;
              Indicator.mom_pct := Some (Indicator.pct 113 112);
              Indicator.yoy_pct := Some (Indicator.pct 113 101);
              Indicator.min := Some 100%float;
              Indicator.max := Some 113%float |}.
Proof. vm_compute. reflexivity. Qed.

Example enrich_one_point :
  Indicator.enrich Samples.one_point =
    Py.ret {| Indicator.latest_value := Some 7%float;
              Indicator.mom_pct := None;
              Indicator.yoy_pct := None;
              Indicator.min := Some 7%float;
              Indicator.max := Some 7%float |}.
Proof. vm_compute. reflexivity. Qed.

(** A zero over a zero is NaN, and not null either. *)
Example mom_pct_nan_on_zero_over_zero :
  exists snap x,
    Indicator.enrich [Samples.point "2024-01" 0; Samples.point "2024-02" 0] = Py.ret snap
    /\ Indicator.mom_pct snap = Some x /\ is_nan x = true.
Proof. eexists _, _. repeat split; vm_compute; reflexivity. Qed.

(** A sparkline first without data, then with one point, then without
    again: one chart is initialized, for the render that has the point, and
    it is disposed of when the data goes. *)
Example spark_life :
  let ps := [ Samples.spark_props None;
              Samples.spark_props (Some Samples.one_point);
              Samples.spark_props (Some []) ] in
  Spark.inits (Spark.run (firstn 1 ps)) = 0%nat
  /\ map Spark.is_init (Spark.calls (Spark.run (firstn 2 ps))) = [true; false]
  /\ Spark.chartInstance (Spark.run (firstn 2 ps)) = true
  /\ Spark.calls (Spark.run ps)
     = (Spark.calls (Spark.run (firstn 2 ps)) ++ [Spark.Dispose])%list
  /\ Spark.chartInstance (Spark.run ps) = false.
Proof. repeat split; vm_compute; reflexivity. Qed.

(** Of the three indicators of the sample index, the second fails: its tile
    is the error tile, the two others are drawn from their data. *)
Example dashboard_with_one_failure :
  Dashboard.render
    (Dashboard.loadDashboard (inr Samples.index3) Samples.fetch_second_fails
       Dashboard.initial)
  = Dashboard.Grid "2025-02-01T06:00:00Z"
      [ Dashboard.DataTile (Samples.artifact "cpi");
        Dashboard.ErrorTile "Unemployment" "schema_mismatch";
        Dashboard.DataTile (Samples.artifact "policy_rate") ].
Proof. vm_compute. reflexivity. Qed.

(** * Further properties of the code *)

(** ** The enrichment routine: when it returns, and what is null *)

Section EnrichMore.

Lemma nonempty_last (df : Indicator.DataFrame) :
  df <> [] -> exists last, Indicator.from_end df 1 = Some last.
Proof.
  intros Hne. apply from_end_Some. destruct df; [congruence | simpl; lia].
Qed.

Lemma from_end_In (df : Indicator.DataFrame) (k : nat) (v : float) :
  Indicator.from_end df k = Some v -> In v (map Indicator.value df).
Proof.
  intros H. pose proof (from_end_range df k v H) as Hk.
  rewrite from_end_unfold in H by assumption. eapply nth_error_In, H.
Qed.

(** [s.min()] over the values that are numbers. *)
Lemma smin_least_notna (s : list float) :
  Pandas.notna s <> [] ->
  In (Pandas.smin s) s /\ is_nan (Pandas.smin s) = false
  /\ forall v, In v s -> is_nan v = false -> (Pandas.smin s <=? v)%float = true.
Proof.
  intros Hne.
  assert (Hall : Forall (fun v => is_nan v = false) (Pandas.notna s)).
  { apply List.Forall_forall. intros v Hv. unfold Pandas.notna in Hv.
    apply List.filter_In in Hv. destruct Hv as [_ Hv]. now apply negb_true_iff in Hv. }
  unfold Pandas.smin. destruct (Pandas.notna s) as [|x xs] eqn:E; [congruence|].
  destruct (fold_min_least xs x Hall) as (Hin & Hnan & Hle).
  split; [|split; [exact Hnan|]].
  - assert (Hin' : In (fold_left (fun acc y => if (y <? acc)%float then y else acc) xs x)
                     (Pandas.notna s)) by (rewrite E; exact Hin).
    unfold Pandas.notna in Hin'. now apply List.filter_In in Hin'.
  - intros v Hv Hvn. apply Hle. rewrite <- E. unfold Pandas.notna.
    apply List.filter_In. split; [exact Hv | now rewrite Hvn].
Qed.

Lemma smax_greatest_notna (s : list float) :
  Pandas.notna s <> [] ->
  In (Pandas.smax s) s /\ is_nan (Pandas.smax s) = false
  /\ forall v, In v s -> is_nan v = false -> (v <=? Pandas.smax s)%float = true.
Proof.
  intros Hne.
  assert (Hall : Forall (fun v => is_nan v = false) (Pandas.notna s)).
  { apply List.Forall_forall. intros v Hv. unfold Pandas.notna in Hv.
    apply List.filter_In in Hv. destruct Hv as [_ Hv]. now apply negb_true_iff in Hv. }
  unfold Pandas.smax. destruct (Pandas.notna s) as [|x xs] eqn:E; [congruence|].
  destruct (fold_max_greatest xs x Hall) as (Hin & Hnan & Hle).
  split; [|split; [exact Hnan|]].
  - assert (Hin' : In (fold_left (fun acc y => if (acc <? y)%float then y else acc) xs x)
                     (Pandas.notna s)) by (rewrite E; exact Hin).
    unfold Pandas.notna in Hin'. now apply List.filter_In in Hin'.
  - intros v Hv Hvn. apply Hle. rewrite <- E. unfold Pandas.notna.
    apply List.filter_In. split; [exact Hv | now rewrite Hvn].
Qed.

Lemma notna_nonempty (s : list float) (v : float) :
  In v s -> is_nan v = false -> Pandas.notna s <> [].
Proof.
  intros Hv Hn E.
  assert (Hin : In v (Pandas.notna s))
    by (unfold Pandas.notna; apply List.filter_In; split; [exact Hv | now rewrite Hn]).
  rewrite E in Hin. exact Hin.
Qed.

End EnrichMore.

(** X1. [enrich] returns a snapshot exactly on the non-empty frames: the
    empty frame is its only failing input. *)
Theorem enrich_returns_iff_nonempty (df : Indicator.DataFrame) :
  (exists snap, Indicator.enrich df = Py.ret snap) <-> df <> [].
Proof.
  split.
  - intros [snap H] ->. discriminate H.
  - intros Hne. destruct (nonempty_last df Hne) as [last Hlast].
    eexists. apply (enrich_returns df last Hlast).
Qed.

(** X2. In a snapshot [enrich] returns, [latest_value], [min] and [max]
    are never null; [mom_pct] is a number exactly when the frame has 2 rows or
    more, and [yoy_pct] exactly when it has 14 rows or more. *)
Theorem snapshot_null_fields (df : Indicator.DataFrame) (snap : Indicator.Snapshot) :
  Indicator.enrich df = Py.ret snap ->
  is_Some (Indicator.latest_value snap)
  /\ is_Some (Indicator.min snap)
  /\ is_Some (Indicator.max snap)
  /\ (is_Some (Indicator.mom_pct snap) <-> (2 <= length df)%nat)
  /\ (is_Some (Indicator.yoy_pct snap) <-> (14 <= length df)%nat).
Proof.
  intros He.
  assert (Hne : df <> []) by (intros ->; discriminate He).
  destruct (nonempty_last df Hne) as [last Hlast].
  rewrite (enrich_returns df last Hlast) in He. injection He as <-.
  cbn [Indicator.latest_value Indicator.min Indicator.max Indicator.mom_pct
       Indicator.yoy_pct].
  repeat split; eauto.
  - intros [x Hx]. destruct (Indicator.from_end df 2) as [prev|] eqn:E; [|discriminate].
    apply from_end_range in E. lia.
  - intros Hlen. destruct (from_end_Some df 2 ltac:(lia)) as [prev ->]. cbn. eauto.
  - intros [x Hx]. destruct (13 <? length df)%nat eqn:E; [|discriminate].
    apply Nat.ltb_lt in E. lia.
  - intros Hlen.
    replace (13 <? length df)%nat with true by (symmetry; apply Nat.ltb_lt; lia).
    destruct (from_end_Some df 13 ltac:(lia)) as [old ->]. cbn. eauto.
Qed.

Lemma snapshot_null_fields_witness :
  exists snap,
    Indicator.enrich Samples.thirteen_months = Py.ret snap
    /\ is_Some (Indicator.mom_pct snap)
    /\ ~ is_Some (Indicator.yoy_pct snap).
Proof.
  eexists. split; [vm_compute; reflexivity|].
  match goal with
  | |- is_Some (Indicator.mom_pct ?s) /\ _ =>
      destruct (snapshot_null_fields Samples.thirteen_months s eq_refl)
        as (_ & _ & _ & Hmom & Hyoy)
  end.
  split.
  - apply Hmom. vm_compute. lia.
  - intros H. apply Hyoy in H. vm_compute in H. lia.
Defined.

(** X3. Over a frame without missing values, the snapshot is in order:
    [min <= latest_value <= max]. *)
Theorem snapshot_in_order (df : Indicator.DataFrame) (snap : Indicator.Snapshot) :
  Indicator.no_missing df ->
  Indicator.enrich df = Py.ret snap ->
  exists lo v hi,
    Indicator.min snap = Some lo
    /\ Indicator.latest_value snap = Some v
    /\ Indicator.max snap = Some hi
    /\ (lo <=? v)%float = true /\ (v <=? hi)%float = true
    /\ (lo <=? hi)%float = true.
Proof.
  intros Hnm He.
  assert (Hne : df <> []) by (intros ->; discriminate He).
  destruct (nonempty_last df Hne) as [last Hlast].
  rewrite (enrich_returns df last Hlast) in He. injection He as <-.
  eexists _, last, _. repeat split; try reflexivity.
  - destruct (smin_least (map Indicator.value df)) as (_ & _ & Hle);
      [destruct df; [congruence | discriminate] | now apply no_missing_values |].
    apply Hle. now apply (from_end_In df 1).
  - destruct (smax_greatest (map Indicator.value df)) as (_ & _ & Hle);
      [destruct df; [congruence | discriminate] | now apply no_missing_values |].
    apply Hle. now apply (from_end_In df 1).
  - destruct (smin_least (map Indicator.value df)) as (_ & _ & Hle);
      [destruct df; [congruence | discriminate] | now apply no_missing_values |].
    destruct (smax_greatest (map Indicator.value df)) as (Hin & _ & _);
      [destruct df; [congruence | discriminate] | now apply no_missing_values |].
    now apply Hle.
Qed.

Lemma snapshot_in_order_witness :
  exists lo v hi,
    Indicator.enrich Samples.falling
    = Py.ret {| Indicator.latest_value := Some v;
                Indicator.mom_pct := Some (Indicator.pct 2 1);
                Indicator.yoy_pct := None;
                Indicator.min := Some lo;
                Indicator.max := Some hi |}
    /\ (lo <=? v)%float = true /\ (v <=? hi)%float = true.
Proof.
  assert (Hnm : Indicator.no_missing Samples.falling) by (repeat constructor).
  destruct (snapshot_in_order Samples.falling _ Hnm eq_refl)
    as (lo & v & hi & Hlo & Hv & Hhi & H1 & H2 & _).
  exists lo, v, hi. split; [|split; assumption].
  cbn in Hlo, Hv, Hhi.
  injection Hlo as <-. injection Hv as <-. injection Hhi as <-.
  vm_compute. reflexivity.
Defined.

(** X4. [min] and [max] pass over missing values: when the frame has a
    value that is a number, [min] is a number of the frame below every number
    of it, and [max] one above every number of it, whatever NaN rows there
    are. *)
Theorem snapshot_extremes_skip_missing
    (df : Indicator.DataFrame) (snap : Indicator.Snapshot) (p : Indicator.SeriesPoint) :
  Indicator.enrich df = Py.ret snap ->
  In p df -> is_nan (Indicator.value p) = false ->
  exists lo hi,
    Indicator.min snap = Some lo /\ Indicator.max snap = Some hi
    /\ is_nan lo = false /\ is_nan hi = false
    /\ In lo (map Indicator.value df) /\ In hi (map Indicator.value df)
    /\ forall q, In q df -> is_nan (Indicator.value q) = false ->
                 (lo <=? Indicator.value q)%float = true
                 /\ (Indicator.value q <=? hi)%float = true.
Proof.
  intros He Hp Hnan.
  assert (Hne : df <> []) by (intros ->; discriminate He).
  destruct (nonempty_last df Hne) as [last Hlast].
  rewrite (enrich_returns df last Hlast) in He. injection He as <-.
  assert (Hnn : Pandas.notna (map Indicator.value df) <> [])
    by (apply (notna_nonempty _ (Indicator.value p)); [now apply in_map | exact Hnan]).
  destruct (smin_least_notna _ Hnn) as (Hin1 & Hn1 & Hle1).
  destruct (smax_greatest_notna _ Hnn) as (Hin2 & Hn2 & Hle2).
  eexists _, _. repeat split; try reflexivity; try assumption.
  - apply Hle1; [now apply in_map | assumption].
  - apply Hle2; [now apply in_map | assumption].
Qed.

Lemma snapshot_extremes_skip_missing_witness :
  exists lo hi,
    Indicator.enrich [Samples.point "2024-01" 3; Samples.point "2024-02" nan;
                      Samples.point "2024-03" 1]
    = Py.ret {| Indicator.latest_value := Some 1%float;
                Indicator.mom_pct := Some nan;
                Indicator.yoy_pct := None;
                Indicator.min := Some lo;
                Indicator.max := Some hi |}
    /\ is_nan lo = false /\ is_nan hi = false.
Proof.
  destruct (snapshot_extremes_skip_missing
              [Samples.point "2024-01" 3; Samples.point "2024-02" nan;
               Samples.point "2024-03" 1] _ (Samples.point "2024-01" 3)
              eq_refl (or_introl eq_refl) eq_refl)
    as (lo & hi & Hlo & Hhi & Hn1 & Hn2 & _).
  exists lo, hi. split; [|split; assumption].
  cbn in Hlo, Hhi. injection Hlo as <-. injection Hhi as <-.
  vm_compute. reflexivity.
Defined.

(** ** The dashboard: a failed index, the partition of the entries, the grid *)

Section DashboardMore.

Variable fetchIndicatorData : string -> Dashboard.JsError + Tile.IndicatorData.
Variable index : Dashboard.IndexData.

Abbreviation loaded := (DashboardView.loaded fetchIndicatorData index).

Lemma loaded_eq :
  loaded
  = let st0 := Dashboard.setLastUpdated (Dashboard.last_updated index)
                 (Dashboard.setIndexData (Some index)
                    (Dashboard.setLoading true Dashboard.initial)) in
    Dashboard.setLoading false
      (Dashboard.setIndicatorData
         (Dashboard.collect
            (snd (Dashboard.load_each fetchIndicatorData st0 (Dashboard.indicators index))))
         (fst (Dashboard.load_each fetchIndicatorData st0 (Dashboard.indicators index)))).
Proof.
  unfold DashboardView.loaded, Dashboard.loadDashboard. cbv zeta.
  now destruct (Dashboard.load_each fetchIndicatorData _ (Dashboard.indicators index)).
Qed.

Lemma loaded_errors (k : string) :
  Dashboard.errors loaded !! k
  = match fetchIndicatorData k with
    | inl e =>
        if bool_decide (k ∈ map Dashboard.id (Dashboard.indicators index))
        then Some (Dashboard.errorMessage e) else None
    | inr _ => None
    end.
Proof.
  rewrite loaded_eq. cbv zeta.
  cbn [Dashboard.errors Dashboard.setLoading Dashboard.setIndicatorData].
  rewrite load_each_errors.
  cbn [Dashboard.errors Dashboard.setLastUpdated Dashboard.setIndexData
       Dashboard.setLoading Dashboard.initial].
  now rewrite lookup_empty.
Qed.

Lemma loaded_data (k : string) :
  Dashboard.indicatorData loaded !! k
  = match fetchIndicatorData k with
    | inr d =>
        if bool_decide (k ∈ map Dashboard.id (Dashboard.indicators index))
        then Some d else None
    | inl _ => None
    end.
Proof.
  rewrite loaded_eq. cbv zeta.
  cbn [Dashboard.indicatorData Dashboard.setLoading Dashboard.setIndicatorData].
  rewrite load_each_results. unfold Dashboard.collect.
  now rewrite collect_lookup, lookup_empty.
Qed.

Lemma loaded_frame :
  Dashboard.loading loaded = false
  /\ Dashboard.indexData loaded = Some index
  /\ Dashboard.lastUpdated loaded = Dashboard.last_updated index.
Proof.
  rewrite loaded_eq. cbv zeta.
  destruct (load_each_frame fetchIndicatorData (Dashboard.indicators index)
              (Dashboard.setLastUpdated (Dashboard.last_updated index)
                 (Dashboard.setIndexData (Some index)
                    (Dashboard.setLoading true Dashboard.initial))))
    as (Hi & _ & _ & Hl).
  cbn [Dashboard.loading Dashboard.indexData Dashboard.lastUpdated
       Dashboard.setLoading Dashboard.setIndicatorData].
  rewrite Hi, Hl. repeat split.
Qed.

Lemma render_entry_settled (indicator : Dashboard.IndexEntry) :
  In indicator (Dashboard.indicators index) ->
  Dashboard.render_entry loaded indicator
  = DashboardView.settled_tile fetchIndicatorData indicator.
Proof.
  intros Hin.
  assert (Hid : Dashboard.id indicator ∈ map Dashboard.id (Dashboard.indicators index))
    by (apply list_elem_of_In, in_map, Hin).
  unfold Dashboard.render_entry, DashboardView.settled_tile.
  rewrite loaded_data, loaded_errors, (bool_decide_eq_true_2 _ Hid).
  destruct (fetchIndicatorData (Dashboard.id indicator)) as [e|d]; [|reflexivity].
  cbn [Dashboard.truthy default].
  now destruct (String.eqb (Dashboard.errorMessage e) "").
Qed.

End DashboardMore.

(** X5. When the index itself cannot be fetched, whatever the error and
    whatever the indicators' fetches would do, the dashboard stops loading,
    keeps no data and no error, and draws the page of the failed load. *)
Theorem failed_index_draws_failed_page
    (error : Dashboard.JsError)
    (fetchIndicatorData : string -> Dashboard.JsError + Tile.IndicatorData) :
  let st := Dashboard.loadDashboard (inl error) fetchIndicatorData Dashboard.initial in
  Dashboard.render st = Dashboard.FailedPage
  /\ Dashboard.loading st = false
  /\ Dashboard.indicatorData st = ∅
  /\ Dashboard.errors st = ∅.
Proof. repeat split. Qed.



(** X8. The fetches may settle in any order: the errors that end up
    recorded are the same map. *)
Theorem errors_do_not_depend_on_settling_order
    (fetchIndicatorData : string -> Dashboard.JsError + Tile.IndicatorData)
    (st : Dashboard.State) (inds inds' : list Dashboard.IndexEntry) :
  Permutation inds inds' ->
  Dashboard.errors (fst (Dashboard.load_each fetchIndicatorData st inds))
  = Dashboard.errors (fst (Dashboard.load_each fetchIndicatorData st inds')).
Proof.
  intros Hperm. apply map_eq. intros k. now apply load_each_errors_any_order.
Qed.

Lemma errors_do_not_depend_on_settling_order_witness :
  Dashboard.errors
    (fst (Dashboard.load_each Governments.fetch_all_fail Dashboard.initial
            (Dashboard.indicators Samples.index3)))
  = Dashboard.errors
      (fst (Dashboard.load_each Governments.fetch_all_fail Dashboard.initial
              (rev (Dashboard.indicators Samples.index3)))).
Proof.
  apply errors_do_not_depend_on_settling_order. apply Permutation_rev.
Defined.

(** ** The sparkline over its life *)

Section SparkLifeFacts.

Lemma has_data_cases (p : Spark.SparkProps) :
  (SparkLife.has_data p = true /\ exists pt pts, Spark.data p = Some (pt :: pts))
  \/ (SparkLife.has_data p = false /\ Spark.no_data p = true
      /\ (Spark.data p = None \/ Spark.data p = Some [])).
Proof.
  unfold SparkLife.has_data, Spark.no_data.
  destruct (Spark.data p) as [[|pt pts]|]; cbn; eauto 6.
Qed.

(** One render from a state in which a chart is held exactly while a
    cleanup is registered. *)
Lemma update_step (st : Spark.State) (p : Spark.SparkProps) :
  Spark.chartInstance st = Spark.cleanup st ->
  Spark.calls (Spark.update st p)
  = (Spark.calls st ++ SparkLife.calls_of_update (Spark.chartInstance st) p)%list
  /\ Spark.chartInstance (Spark.update st p) = SparkLife.has_data p
  /\ Spark.cleanup (Spark.update st p) = SparkLife.has_data p
  /\ Spark.isLoaded (Spark.update st p) = Spark.isLoaded st || SparkLife.has_data p.
Proof.
  intros Hinv.
  unfold Spark.update, Spark.chart_effect, Spark.run_cleanup, Spark.commit,
    SparkLife.calls_of_update, SparkLife.has_data, Spark.no_data, Spark.call.
  cbn [Spark.cleanup Spark.chartInstance Spark.chartRef Spark.calls Spark.isLoaded].
  rewrite <- Hinv.
  destruct (Spark.data p) as [[|pt pts]|], (Spark.chartInstance st);
    cbn [Spark.cleanup Spark.chartInstance Spark.chartRef Spark.calls Spark.isLoaded
         negb app];
    rewrite ?app_nil_r, ?orb_false_r, ?orb_true_r, <- ?app_assoc;
    repeat split; reflexivity.
Qed.

Lemma run_snoc (ps : list Spark.SparkProps) (p : Spark.SparkProps) :
  Spark.run (ps ++ [p]) = Spark.update (Spark.run ps) p.
Proof. unfold Spark.run. now rewrite fold_left_app. Qed.

Lemma run_invariant (ps : list Spark.SparkProps) :
  Spark.chartInstance (Spark.run ps) = Spark.cleanup (Spark.run ps).
Proof. unfold Spark.run. now apply run_instance. Qed.

Lemma count_app (f : Spark.Call -> bool) (l l' : list Spark.Call) :
  length (List.filter f (l ++ l')) = (length (List.filter f l) + length (List.filter f l'))%nat.
Proof. now rewrite List.filter_app, List.length_app. Qed.

End SparkLifeFacts.

(** X9. What a render makes the component call depends only on whether the
    render before it carried data and on its own props: the chart of the
    render before is disposed of, and with data a chart is initialized and
    given its option; a chart is held afterwards exactly when this render
    carried data. *)
Theorem calls_of_a_render (history : list Spark.SparkProps) (p : Spark.SparkProps) :
  Spark.calls (Spark.run (history ++ [p]))
  = (Spark.calls (Spark.run history)
     ++ SparkLife.calls_of_update
          (match last history with
           | Some q => SparkLife.has_data q
           | None => false
           end) p)%list
  /\ Spark.chartInstance (Spark.run (history ++ [p])) = SparkLife.has_data p.
Proof.
  rewrite run_snoc.
  destruct (update_step (Spark.run history) p (run_invariant history)) as (Hc & Hi & _).
  split; [|exact Hi]. rewrite Hc. do 2 f_equal.
  destruct history as [|q qs] using rev_ind; [reflexivity|].
  rewrite last_snoc, run_snoc.
  now destruct (update_step (Spark.run qs) q (run_invariant qs)) as (_ & -> & _).
Qed.

(** X10. At any point of a sparkline's life every chart that was
    initialized has been disposed of, but for the one held, if one is held;
    once the component is unmounted none is held, as many charts were
    disposed of as were initialized, and a resize of the window calls
    nothing. *)
Theorem charts_are_disposed_of (history : list Spark.SparkProps) :
  Spark.inits (Spark.run history)
  = (SparkLife.disposes (Spark.run history) + SparkLife.live (Spark.run history))%nat
  /\ (let st := SparkLife.unmount (Spark.run history) in
      Spark.inits st = SparkLife.disposes st
      /\ Spark.chartInstance st = false
      /\ Spark.handleResize st = st).
Proof.
  assert (Hbal : Spark.inits (Spark.run history)
                 = (SparkLife.disposes (Spark.run history)
                    + SparkLife.live (Spark.run history))%nat).
  { induction history as [|p ps IH] using rev_ind; [reflexivity|].
    rewrite run_snoc.
    destruct (update_step (Spark.run ps) p (run_invariant ps)) as (Hc & Hi & _).
    unfold Spark.inits, SparkLife.disposes, SparkLife.live in *.
    rewrite Hc, Hi, !count_app, IH. unfold SparkLife.calls_of_update.
    destruct (has_data_cases p) as [(-> & pt & pts & ->)|(-> & _ & [->| ->])];
      destruct (Spark.chartInstance (Spark.run ps)); cbn; lia. }
  split; [exact Hbal|].
  pose proof (run_invariant history) as Hinv.
  unfold SparkLife.unmount, Spark.run_cleanup, Spark.handleResize.
  unfold Spark.inits, SparkLife.disposes, SparkLife.live in *.
  rewrite <- Hinv.
  destruct (Spark.chartInstance (Spark.run history)) eqn:E.
  - cbn [Spark.calls Spark.call Spark.chartInstance].
    rewrite !count_app, Hbal. cbn. repeat split; lia.
  - rewrite E. repeat split. lia.
Qed.

(** X11. Every render that carries data initializes a chart of its own and
    sets its option once: over a life, the charts initialized and the options
    set are as many as the renders with data. *)
Theorem one_chart_per_render_with_data (history : list Spark.SparkProps) :
  Spark.inits (Spark.run history) = length (List.filter SparkLife.has_data history)
  /\ SparkLife.set_options (Spark.run history)
     = length (List.filter SparkLife.has_data history).
Proof.
  induction history as [|p ps [IH1 IH2]] using rev_ind; [split; reflexivity|].
  rewrite run_snoc.
  destruct (update_step (Spark.run ps) p (run_invariant ps)) as (Hc & _).
  unfold Spark.inits, SparkLife.set_options in *.
  rewrite Hc, !count_app, IH1, IH2, List.filter_app, List.length_app.
  unfold SparkLife.calls_of_update. cbn [List.filter].
  destruct (has_data_cases p) as [(-> & pt & pts & ->)|(-> & _ & [->| ->])];
    destruct (Spark.chartInstance (Spark.run ps)); cbn; lia.
Qed.

(** X12. Once its effect has run, a sparkline with data shows the chart,
    with the party bands exactly when [showPolitics] is on; without data it
    shows the placeholder, whatever it showed before. *)
Theorem view_after_the_effect (history : list Spark.SparkProps) (p : Spark.SparkProps) :
  Spark.render p (Spark.run (history ++ [p]))
  = if SparkLife.has_data p
    then Spark.Chart (Spark.height p) (Spark.width p) (Spark.showPolitics p)
    else Spark.NoData (Spark.height p) (Spark.width p).
Proof.
  rewrite run_snoc.
  destruct (update_step (Spark.run history) p (run_invariant history))
    as (_ & _ & _ & Hl).
  unfold Spark.render. rewrite Hl.
  destruct (has_data_cases p) as [(-> & pt & pts & E)|(-> & -> & _)]; [|reflexivity].
  unfold Spark.no_data. rewrite E. now rewrite orb_true_r, andb_true_r.
Qed.

(** ** More on binary64: NaN and signs *)

Section FloatMore.

Lemma SFcompare_refl_not_nan (a : spec_float) :
  a <> S754_nan -> SFcompare a a = Some Eq.
Proof.
  destruct a as [[]|[]| |[] m e]; cbn [SFcompare]; try congruence; intros _;
    rewrite Z.compare_refl;
    change (PosDef.Pos.compare_cont Eq m m) with (Pos.compare m m);
    now rewrite Pos.compare_refl.
Qed.

Lemma is_nan_Prim2SF (x : float) : is_nan x = true <-> Prim2SF x = S754_nan.
Proof.
  unfold is_nan. rewrite FloatAxioms.eqb_spec. unfold SFeqb. split.
  - intros H. destruct (Prim2SF x) as [s|s| |s m e] eqn:E; try reflexivity;
      rewrite SFcompare_refl_not_nan in H by discriminate; discriminate.
  - intros ->. reflexivity.
Qed.

Lemma is_nan_sub_l (a b : float) : is_nan a = true -> is_nan (a - b) = true.
Proof.
  rewrite !is_nan_Prim2SF, sub_spec. intros ->. reflexivity.
Qed.

Lemma is_nan_add_l (a b : float) : is_nan a = true -> is_nan (a + b) = true.
Proof.
  rewrite !is_nan_Prim2SF, add_spec. intros ->. reflexivity.
Qed.

Lemma is_nan_mul_l (a b : float) : is_nan a = true -> is_nan (a * b) = true.
Proof.
  rewrite !is_nan_Prim2SF, mul_spec. intros ->. reflexivity.
Qed.

Lemma ltb_nan_l (a b : float) : is_nan a = true -> (a <? b)%float = false.
Proof.
  rewrite is_nan_Prim2SF, FloatAxioms.ltb_spec. intros ->. reflexivity.
Qed.

Lemma leb_nan_l (a b : float) : is_nan a = true -> (a <=? b)%float = false.
Proof.
  rewrite is_nan_Prim2SF, FloatAxioms.leb_spec. intros ->. reflexivity.
Qed.

Lemma leb_nan_r (a b : float) : is_nan b = true -> (a <=? b)%float = false.
Proof.
  rewrite is_nan_Prim2SF, FloatAxioms.leb_spec. intros ->.
  unfold SFleb. now destruct (Prim2SF a).
Qed.

(** [Math.min] and [Math.max] are NaN as soon as one argument is. *)
Lemma min2_nan_l (a b : float) : is_nan a = true -> is_nan (Spark.min2 a b) = true.
Proof. unfold Spark.min2. intros ->. reflexivity. Qed.

Lemma min2_nan_r (a b : float) : is_nan b = true -> is_nan (Spark.min2 a b) = true.
Proof. unfold Spark.min2. intros ->. now rewrite orb_true_r. Qed.

Lemma max2_nan_l (a b : float) : is_nan a = true -> is_nan (Spark.max2 a b) = true.
Proof. unfold Spark.max2. intros ->. reflexivity. Qed.

Lemma max2_nan_r (a b : float) : is_nan b = true -> is_nan (Spark.max2 a b) = true.
Proof. unfold Spark.max2. intros ->. now rewrite orb_true_r. Qed.

Lemma fold_min2_nan (xs : list float) : forall acc,
  is_nan acc = true \/ (exists x, In x xs /\ is_nan x = true) ->
  is_nan (fold_left Spark.min2 xs acc) = true.
Proof.
  induction xs as [|y ys IH]; intros acc H; cbn [fold_left].
  - destruct H as [H|(x & [] & _)]. exact H.
  - apply IH. destruct H as [H|(x & [<-|Hx] & Hn)].
    + left. now apply min2_nan_l.
    + left. now apply min2_nan_r.
    + right. now exists x.
Qed.

Lemma fold_max2_nan (xs : list float) : forall acc,
  is_nan acc = true \/ (exists x, In x xs /\ is_nan x = true) ->
  is_nan (fold_left Spark.max2 xs acc) = true.
Proof.
  induction xs as [|y ys IH]; intros acc H; cbn [fold_left].
  - destruct H as [H|(x & [] & _)]. exact H.
  - apply IH. destruct H as [H|(x & [<-|Hx] & Hn)].
    + left. now apply max2_nan_l.
    + left. now apply max2_nan_r.
    + right. now exists x.
Qed.

(** A rounded product has the sign it was given, or is NaN. *)
Lemma binary_round_aux_sign (s : bool) (m e : Z) (l : location) :
  let r := binary_round_aux prec emax s m e l in
  r = S754_nan \/ r = S754_zero s \/ r = S754_infinity s
  \/ exists m' e', r = S754_finite s m' e'.
Proof.
  unfold binary_round_aux.
  destruct (shr_fexp prec emax m e l) as [mrs' e'].
  destruct (shr_fexp prec emax _ e' loc_Exact) as [mrs'' e''].
  destruct (shr_m mrs'') as [|m''|m'']; auto.
  destruct (e'' <=? emax - prec)%Z; eauto 6.
Qed.

(** A number that is not below zero, times one hundred, is not below zero. *)
Lemma percent_not_negative (x : float) :
  (x <? 0)%float = false -> (x * 100 <? 0)%float = false.
Proof.
  rewrite !FloatAxioms.ltb_spec, mul_spec.
  replace (Prim2SF 0) with (S754_zero false) by (vm_compute; reflexivity).
  replace (Prim2SF 100) with (S754_finite false 7036874417766400 (-46))
    by (vm_compute; reflexivity).
  unfold SF64mul, SFmul, SFltb.
  destruct (Prim2SF x) as [[]|[]| |[] m e]; cbn [SFcompare xorb];
    try discriminate; try reflexivity.
  intros _.
  destruct (binary_round_aux_sign false (Z.pos (m * 7036874417766400)) (e + -46) loc_Exact)
    as [->|[->|[->|(m' & e' & ->)]]]; reflexivity.
Qed.

End FloatMore.

(** ** The tile and its sparkline *)

(** X13. The chart of a tile never leaves its axis: for an artifact whose
    snapshot [enrich] computed on a frame without missing values and whose
    series is made of points of that frame (all of them or only the newest),
    the y-axis of the tile's sparkline runs from the snapshot's [min] to its
    [max], and every value drawn lies between the two. *)
Theorem tile_chart_within_axis
    (formatValue : option float -> string -> string)
    (formatDelta getDeltaClass : option float -> string)
    (formatRelativeTime : string -> string)
    (df : Indicator.DataFrame) (d : Tile.IndicatorData)
    (pt : Indicator.SeriesPoint) (pts : list Indicator.SeriesPoint) :
  Indicator.no_missing df ->
  Indicator.enrich df = Py.ret (Tile.snapshot d) ->
  Tile.series d = pt :: pts ->
  incl (Tile.series d) df ->
  exists sp lo hi,
    TileView.sparkline
      (TileView.of_dashboard formatValue formatDelta getDeltaClass formatRelativeTime d)
    = Some sp
    /\ Spark.data sp = Some (pt :: pts)
    /\ Indicator.min (Tile.snapshot d) = Some lo
    /\ Indicator.max (Tile.snapshot d) = Some hi
    /\ Spark.yAxis_min (Spark.chart_option sp (pt :: pts)) = lo
    /\ Spark.yAxis_max (Spark.chart_option sp (pt :: pts)) = hi
    /\ forall v, In v (Spark.series_data (Spark.chart_option sp (pt :: pts))) ->
                 (lo <=? v)%float = true /\ (v <=? hi)%float = true.
Proof.
  intros Hnm He Hser Hincl.
  assert (Hne : df <> []) by (intros ->; discriminate He).
  destruct (nonempty_last df Hne) as [last Hlast].
  rewrite (enrich_returns df last Hlast) in He. injection He as He.
  exists (TileView.spark_props d), (Pandas.smin (map Indicator.value df)),
    (Pandas.smax (map Indicator.value df)).
  unfold TileView.of_dashboard, TileView.Tile.
  cbn [TileView.error TileView.data Dashboard.truthy TileView.sparkline].
  unfold TileView.spark_props, Spark.chart_option.
  cbn [Spark.data Spark.min Spark.max Spark.yAxis_min Spark.yAxis_max Spark.series_data].
  rewrite <- He. cbn [Indicator.min Indicator.max].
  split; [reflexivity|]. split; [now rewrite Hser|].
  repeat split; try reflexivity.
  - destruct (smin_least (map Indicator.value df)) as (_ & _ & Hle);
      [destruct df; [congruence | discriminate] | now apply no_missing_values |].
    apply Hle. apply in_map_iff in H. destruct H as (q & <- & Hq).
    apply in_map, Hincl. rewrite Hser. exact Hq.
  - destruct (smax_greatest (map Indicator.value df)) as (_ & _ & Hle);
      [destruct df; [congruence | discriminate] | now apply no_missing_values |].
    apply Hle. apply in_map_iff in H. destruct H as (q & <- & Hq).
    apply in_map, Hincl. rewrite Hser. exact Hq.
Qed.

Lemma tile_chart_within_axis_witness :
  exists sp,
    TileView.sparkline
      (TileView.of_dashboard (fun _ _ => "") (fun _ => "") (fun _ => "") (fun _ => "")
         Governments.falling_artifact)
    = Some sp
    /\ Spark.yAxis_min (Spark.chart_option sp Samples.falling) = 1%float
    /\ Spark.yAxis_max (Spark.chart_option sp Samples.falling) = 100%float.
Proof.
  assert (Hnm : Indicator.no_missing Samples.falling) by (repeat constructor).
  destruct (tile_chart_within_axis (fun _ _ => "") (fun _ => "") (fun _ => "")
              (fun _ => "") Samples.falling Governments.falling_artifact
              (Samples.point "2024-01" 100)
              [Samples.point "2024-02" 1; Samples.point "2024-03" 2]
              Hnm ltac:(vm_compute; reflexivity) eq_refl (incl_refl _))
    as (sp & lo & hi & Hsp & _ & Hlo & Hhi & Hmin & Hmax & _).
  exists sp. split; [exact Hsp|].
  cbn in Hlo, Hhi. injection Hlo as <-. injection Hhi as <-.
  split; assumption.
Defined.

(** X14. A value that is not a number spoils the axis: when the series drawn
    holds a NaN and no [min] is given, the lower end of the y-axis is NaN, and
    so is the upper end when no [max] is given. *)
Theorem nan_value_spoils_axis
    (p : Spark.SparkProps) (points : list Indicator.SeriesPoint)
    (pt : Indicator.SeriesPoint) :
  In pt points -> is_nan (Indicator.value pt) = true ->
  (Spark.min p = None ->
   is_nan (Spark.yAxis_min (Spark.chart_option p points)) = true)
  /\ (Spark.max p = None ->
      is_nan (Spark.yAxis_max (Spark.chart_option p points)) = true).
Proof.
  intros Hin Hnan.
  assert (Hv : exists x, In x (map Indicator.value points) /\ is_nan x = true)
    by (exists (Indicator.value pt); split; [now apply in_map | exact Hnan]).
  unfold Spark.chart_option. cbn [Spark.yAxis_min Spark.yAxis_max].
  split; intros ->.
  - apply is_nan_sub_l. unfold Spark.Math_min. apply fold_min2_nan. now right.
  - apply is_nan_add_l. unfold Spark.Math_max. apply fold_max2_nan. now right.
Qed.

Lemma nan_value_spoils_axis_witness :
  is_nan (Spark.yAxis_min
            (Spark.chart_option
               (Samples.spark_props
                  (Some [Samples.point "2024-01" 3; Samples.point "2024-02" nan]))
               [Samples.point "2024-01" 3; Samples.point "2024-02" nan])) = true.
Proof.
  apply (nan_value_spoils_axis _ _ (Samples.point "2024-02" nan)).
  - right. left. reflexivity.
  - reflexivity.
  - reflexivity.
Defined.

(** ** The party bands *)

Section PartyBandsFacts.

Variable Date_parse : string -> float.
Variable Date_of_number : float -> float.
Variable Date_now : float.

Lemma Math_max_zero (x : float) :
  (Spark.Math_max [0%float; x] <? 0)%float = false.
Proof.
  unfold Spark.Math_max. cbn [fold_left].
  replace (Spark.max2 neg_infinity 0) with 0%float by (vm_compute; reflexivity).
  unfold Spark.max2.
  replace (is_nan 0) with false by (vm_compute; reflexivity). cbn [orb].
  destruct (is_nan x); [vm_compute; reflexivity|].
  destruct (x <? 0)%float eqn:E; [vm_compute; reflexivity|].
  destruct (0 <? x)%float; [exact E|].
  replace (get_sign 0) with false by (vm_compute; reflexivity).
  vm_compute. reflexivity.
Qed.

Lemma render_bands (st : PartyBands.State) (data : list Indicator.SeriesPoint) :
  PartyBands.render Date_parse Date_of_number Date_now st data
  = if PartyBands.loading st then None
    else match PartyBands.governmentData st with
         | None => None
         | Some g =>
             match data, List.filter (PartyBands.relevant Date_parse Date_of_number
                                        Date_now data) (PartyBands.periods g) with
             | [], _ => None
             | _ :: _, [] => None
             | _ :: _, relevantPeriods =>
                 Some (imap (PartyBands.band Date_parse Date_of_number Date_now g data)
                         relevantPeriods)
             end
         end.
Proof.
  unfold PartyBands.render.
  destruct (PartyBands.loading st), (PartyBands.governmentData st), data; reflexivity.
Qed.

Lemma imap_map_field {A B C} (f : nat -> A -> B) (g : B -> C) (h : A -> C) (l : list A) :
  (forall i a, g (f i a) = h a) -> map g (imap f l) = map h l.
Proof.
  intros H. revert f H. induction l as [|a l IH]; intros f H; [reflexivity|].
  cbn [imap map]. rewrite H. f_equal. apply IH. intros i b. apply H.
Qed.

End PartyBandsFacts.




(** X17. When the component draws, it draws one band for each period that
    overlaps the data, in the file's order and never none, each with the colour
    of its coalition; it draws nothing while loading, without the file, without
    data, or when no period overlaps. *)
Theorem bands_are_the_overlapping_periods
    (Date_parse : string -> float) (Date_of_number : float -> float) (Date_now : float)
    (st : PartyBands.State) (data : list Indicator.SeriesPoint) :
  match PartyBands.render Date_parse Date_of_number Date_now st data with
  | Some bands =>
      bands <> [] /\ PartyBands.loading st = false /\ data <> []
      /\ exists g,
           PartyBands.governmentData st = Some g
           /\ let overlapping :=
                List.filter (PartyBands.relevant Date_parse Date_of_number Date_now data)
                  (PartyBands.periods g) in
              length bands = length overlapping
              /\ map PartyBands.backgroundColor bands
                 = map (PartyBands.coalitionColor g) overlapping
              /\ (length bands <= length (PartyBands.periods g))%nat
  | None =>
      PartyBands.loading st = true
      \/ PartyBands.governmentData st = None
      \/ data = []
      \/ exists g,
           PartyBands.governmentData st = Some g
           /\ Forall (fun period =>
                        PartyBands.relevant Date_parse Date_of_number Date_now data period
                        = false) (PartyBands.periods g)
  end.
Proof.
  rewrite render_bands.
  destruct (PartyBands.loading st); [now left|].
  destruct (PartyBands.governmentData st) as [g|]; [|right; now left].
  destruct data as [|pt pts]; [right; right; now left|].
  destruct (List.filter _ (PartyBands.periods g)) as [|period rest] eqn:E.
  - right; right; right. exists g. split; [reflexivity|].
    apply List.Forall_forall. intros period Hp.
    destruct (PartyBands.relevant _ _ _ _ period) eqn:Er; [|reflexivity].
    assert (Hin : In period (List.filter
                    (PartyBands.relevant Date_parse Date_of_number Date_now (pt :: pts))
                    (PartyBands.periods g)))
      by (apply List.filter_In; now split).
    rewrite E in Hin. destruct Hin.
  - split; [discriminate|]. split; [reflexivity|]. split; [discriminate|].
    exists g. split; [reflexivity|]. cbv zeta. rewrite E.
    split; [now rewrite length_imap|].
    split; [now apply imap_map_field|].
    rewrite length_imap, <- E. apply List.filter_length_le.
Qed.

(** X18. A band never starts left of the chart: its left edge, as a
    percentage, is not below zero, whatever the dates are. *)
Theorem band_left_is_not_negative
    (Date_parse : string -> float) (Date_of_number : float -> float) (Date_now : float)
    (g : PartyBands.GovernmentData) (data : list Indicator.SeriesPoint)
    (index : nat) (period : PartyBands.PoliticalPeriod) :
  (PartyBands.left (PartyBands.band Date_parse Date_of_number Date_now g data index period)
   <? 0)%float = false.
Proof.
  unfold PartyBands.band. cbn [PartyBands.left].
  apply percent_not_negative, Math_max_zero.
Qed.

(** X19. A date that cannot be read draws no band: a period whose start or
    end is an invalid date overlaps nothing, and when the first or the last
    date of the data is invalid no period overlaps and nothing is drawn. *)
Theorem invalid_dates_draw_nothing
    (Date_parse : string -> float) (Date_of_number : float -> float) (Date_now : float)
    (st : PartyBands.State) (data : list Indicator.SeriesPoint)
    (period : PartyBands.PoliticalPeriod) :
  (is_nan (PartyBands.periodStart Date_parse period) = true
   \/ is_nan (PartyBands.periodEnd Date_parse Date_now period) = true ->
   PartyBands.relevant Date_parse Date_of_number Date_now data period = false)
  /\ (is_nan (PartyBands.minDate Date_parse Date_of_number data) = true
      \/ is_nan (PartyBands.maxDate Date_parse Date_of_number data) = true ->
      PartyBands.render Date_parse Date_of_number Date_now st data = None).
Proof.
  split.
  - unfold PartyBands.relevant. intros [H|H].
    + now rewrite (leb_nan_l _ _ H).
    + rewrite (leb_nan_r _ _ H). apply andb_false_r.
  - intros H. rewrite render_bands.
    destruct (PartyBands.loading st); [reflexivity|].
    destruct (PartyBands.governmentData st) as [g|]; [|reflexivity].
    destruct data as [|pt pts]; [reflexivity|].
    replace (List.filter _ (PartyBands.periods g)) with (@nil PartyBands.PoliticalPeriod);
      [reflexivity|].
    symmetry. induction (PartyBands.periods g) as [|q qs IH]; [reflexivity|].
    cbn [List.filter]. rewrite IH.
    unfold PartyBands.relevant at 1. destruct H as [H|H].
    + rewrite (leb_nan_l _ _ H). now rewrite andb_false_r.
    + now rewrite (leb_nan_r _ _ H).
Qed.
